(** * SOC Blackout synthetic data seeder: a shallow embedding of
      [scripts/seed_data.py] and the properties of its generators.

    The generators are Python functions that draw from the module-level
    [random] generator, from a [Faker] instance and from the wall clock.
    Here those three sources are explicit: a [world] holds what each of them
    will answer next, and a generator is a function from a world to either a
    value with the world that is left, or the exception it raised.  Every
    theorem quantifies over the world, that is over every outcome of the
    draws. *)

From Stdlib Require Import ZArith QArith Qround Qreduction Lia Lqa String Ascii
  DecimalString.
From stdpp Require Import base option list strings gmap fin_maps.

#[local] Open Scope Z_scope.
#[local] Open Scope string_scope.

(** ** Values and documents *)

(** A [datetime] is an instant, counted in microseconds from the Unix
    epoch; a [timedelta] is a number of microseconds. *)
Abbreviation datetime := Z (only parsing).
Abbreviation timedelta := Z (only parsing).

(** The range of Python's [datetime]: 0001-01-01T00:00:00 to
    9999-12-31T23:59:59.999999.  Arithmetic that leaves it raises
    [OverflowError]. *)
Definition datetime_min : datetime := -62135596800000000.
Definition datetime_max : datetime := 253402300799999999.
Definition unix_epoch : datetime := 0.

(** What a document field holds.  A Python [float] is modelled by the exact
    rational it approximates; [VDate t] stands for the ISO-8601 text
    [t.isoformat()], which determines the instant [t]. *)
Inductive value :=
  | VStr (s : string)
  | VInt (n : Z)
  | VFloat (q : Q)
  | VDate (t : datetime)
  | VStrs (l : list string).

(** A document is a Python [dict] with string keys. *)
Abbreviation dict := (gmap string value) (only parsing).

(** A dict display [{k1: v1, ..., kn: vn}]: the items are stored from left
    to right, a later item replacing an earlier one with the same key. *)
Definition dict_literal (items : list (string * value)) : dict :=
  foldl (fun m kv => <[kv.1 := kv.2]> m) ∅ items.

(** ** The sources of nondeterminism and the exceptions *)

(** A world holds what the three sources will answer: each call of a
    drawing function of [random] takes the next number of [random_src],
    each call on [fake] the next number of [faker_src], and each call of
    [datetime.now] the next reading of [clock_src].  The clock is the wall
    clock of a running host: it is set at or after the Unix epoch and reads
    an instant that [datetime] can hold. *)
Record world := World {
  random_src : nat -> N;   (* raw outputs of the module-level [random] *)
  random_pos : nat;
  faker_src : nat -> N;    (* raw outputs of the generator of [fake] *)
  faker_pos : nat;
  clock_src : nat -> Z;    (* successive readings of [datetime.now] *)
  clock_pos : nat;
  clock_in_range : forall i, unix_epoch <= clock_src i <= datetime_max
}.

Inductive exn :=
  | KeyError (key : string)
  | IndexError
  | ValueError
  | OverflowError.

Inductive result (A : Type) :=
  | Ok (a : A) (w : world)
  | Raise (e : exn).
Arguments Ok {A} a w.
Arguments Raise {A} e.

Definition M (A : Type) : Type := world -> result A.

Definition ret {A} (a : A) : M A := fun w => Ok a w.

Definition bind {A B} (m : M A) (f : A -> M B) : M B :=
  fun w => match m w with
           | Ok a w' => f a w'
           | Raise e => Raise e
           end.

Definition raise {A} (e : exn) : M A := fun _ => Raise e.

Notation "x <- m ;; k" := (bind m (fun x => k))
  (at level 100, m at next level, right associativity).

(** [for i in range(count): docs.append(body)], the loop of every
    generator; a negative [count] gives no iteration. *)
Fixpoint repeatM {A} (n : nat) (body : M A) : M (list A) :=
  match n with
  | O => ret []
  | S n' => d <- body ;; ds <- repeatM n' body ;; ret (d :: ds)
  end.

Definition for_range {A} (count : Z) (body : M A) : M (list A) :=
  repeatM (Z.to_nat count) body.

(** [for x in xs: docs.append(body(x))] *)
Fixpoint for_each {A B} (xs : list A) (body : A -> M B) : M (list B) :=
  match xs with
  | [] => ret []
  | x :: xs' => d <- body x ;; ds <- for_each xs' body ;; ret (d :: ds)
  end.

(** *** The [random] module *)

Definition random_next : M N := fun w =>
  Ok (random_src w (random_pos w))
     (World (random_src w) (S (random_pos w)) (faker_src w) (faker_pos w)
            (clock_src w) (clock_pos w) (clock_in_range w)).

(** [random.random()]: a multiple of 2^-53 in [0, 1). *)
Definition random_random : M Q :=
  k <- random_next ;;
  ret (Z.of_N (k mod 2 ^ 53)%N # 2 ^ 53)%Q.

(** [random.uniform(a, b)] is [a + (b - a) * random()]. *)
Definition random_uniform (a b : Q) : M Q :=
  r <- random_random ;; ret (a + (b - a) * r)%Q.

(** [_randbelow(n)] for [n > 0]: some integer of [0, n). *)
Definition randbelow (n : Z) : M Z :=
  k <- random_next ;; ret (Z.of_N k mod n).

(** [random.choice(seq)] *)
Definition random_choice {A} (seq : list A) : M A :=
  match seq with
  | [] => raise IndexError
  | x :: _ =>
      i <- randbelow (Z.of_nat (length seq)) ;;
      ret (nth (Z.to_nat i) seq x)
  end.

(** [random.randint(a, b)] is [randrange(a, b + 1)]. *)
Definition random_randint (a b : Z) : M Z :=
  if decide (b + 1 - a <= 0) then raise ValueError
  else (i <- randbelow (b + 1 - a) ;; ret (a + i)).

(** [random.sample(population, k)], the branch CPython takes for a
    population of at most 21 elements: draw a position of the pool, move
    the last unused element into the hole. *)
Fixpoint sample_pool {A} (pool : list A) (n : nat) (k : nat) : M (list A) :=
  match k with
  | O => ret []
  | S k' =>
      j <- randbelow (Z.of_nat n) ;;
      match pool !! Z.to_nat j, pool !! (n - 1)%nat with
      | Some x, Some y =>
          xs <- sample_pool (<[Z.to_nat j := y]> pool) (n - 1) k' ;;
          ret (x :: xs)
      | _, _ => raise IndexError
      end
  end.

Definition random_sample {A} (population : list A) (k : Z) : M (list A) :=
  if decide (0 <= k <= Z.of_nat (length population))
  then sample_pool population (length population) (Z.to_nat k)
  else raise ValueError.

(** *** Faker and the clock *)

Definition faker_next : M N := fun w =>
  Ok (faker_src w (faker_pos w))
     (World (random_src w) (random_pos w) (faker_src w) (S (faker_pos w))
            (clock_src w) (clock_pos w) (clock_in_range w)).

(** [fake.random_int(min, max)] *)
Definition fake_random_int (a b : Z) : M Z :=
  if decide (b + 1 - a <= 0) then raise ValueError
  else (k <- faker_next ;; ret (a + Z.of_N k mod (b + 1 - a))).

(** [datetime.now(timezone.utc)] *)
Definition datetime_now : M datetime := fun w =>
  Ok (clock_src w (clock_pos w))
     (World (random_src w) (random_pos w) (faker_src w) (faker_pos w)
            (clock_src w) (S (clock_pos w)) (clock_in_range w)).

(** ** Text, rounding and time helpers of the Python runtime *)

(** [str(n)] for an [int]. *)
Definition str_of_int (n : Z) : string := NilZero.string_of_int (Z.to_int n).

Fixpoint kwarg (name : string) (kwargs : list (string * string)) : option string :=
  match kwargs with
  | [] => None
  | (k, v) :: rest => if String.eqb k name then Some v else kwarg name rest
  end.

(** [template.format] with keyword arguments, for templates whose replacement fields are
    plain names, [{name}], as all templates of the program are.  [field] is
    the name being read while inside braces. *)
Fixpoint format_go (kwargs : list (string * string)) (field : option string)
    (template : string) : exn + string :=
  match template, field with
  | EmptyString, None => inr EmptyString
  | EmptyString, Some _ => inl ValueError
  | String c rest, None =>
      if Ascii.eqb c "{" then format_go kwargs (Some EmptyString) rest
      else if Ascii.eqb c "}" then inl ValueError
      else match format_go kwargs None rest with
           | inr r => inr (String c r)
           | inl e => inl e
           end
  | String c rest, Some name =>
      if Ascii.eqb c "}" then
        match kwarg name kwargs with
        | None => inl (KeyError name)
        | Some v => match format_go kwargs None rest with
                    | inr r => inr (v ++ r)
                    | inl e => inl e
                    end
        end
      else format_go kwargs (Some (name ++ String c EmptyString)) rest
  end.

Definition str_format (template : string) (kwargs : list (string * string)) : M string :=
  match format_go kwargs None template with
  | inr s => ret s
  | inl e => raise e
  end.

(** Rounding to the nearest integer, ties to the even one: the rounding of
    [round] and of [timedelta]. *)
Definition round_half_even (x : Q) : Z :=
  let f := Qfloor x in
  match (x - inject_Z f ?= 1 # 2)%Q with
  | Lt => f
  | Gt => f + 1
  | Eq => if Z.even f then f else f + 1
  end.

(** [round(x, ndigits)] *)
Definition py_round (x : Q) (ndigits : nat) : Q :=
  Qred (inject_Z (round_half_even (x * inject_Z (10 ^ Z.of_nat ndigits)))
        / inject_Z (10 ^ Z.of_nat ndigits)).

(** [timedelta(minutes=m)] for a float [m], in microseconds. *)
Definition timedelta_minutes (m : Q) : timedelta :=
  round_half_even (m * inject_Z 60000000).

(** [timedelta(days=d)] for an int [d]. *)
Definition timedelta_days (d : Z) : timedelta := d * 86400000000.

(** [t + delta] on a [datetime]: [OverflowError] when the result is outside
    the range of [datetime]. *)
Definition datetime_add (t : datetime) (delta : timedelta) : M datetime :=
  if decide (datetime_min <= t + delta <= datetime_max) then ret (t + delta)
  else raise OverflowError.

(** [_ts(base, offset_minutes)]: [base + timedelta(minutes=offset_minutes)]
    raises [OverflowError] when the instant is outside the range of
    [datetime]; [isoformat] of the instant does not raise. *)
Definition _ts (base : datetime) (offset_minutes : Q) : M value :=
  t <- datetime_add base (timedelta_minutes offset_minutes) ;;
  ret (VDate t).

Definition hex_digit (d : N) : ascii :=
  nth (N.to_nat d) (list_ascii_of_string "0123456789abcdef") "0"%char.

Fixpoint hex_digits (n : nat) (v : N) : string :=
  match n with
  | O => EmptyString
  | S n' => hex_digits n' (v / 16)%N ++ String (hex_digit (v mod 16)%N) EmptyString
  end.

(** [_trace()]: the first 16 hexadecimal digits of the MD5 digest of a fresh
    UUID.  Neither MD5 nor the UUID text is modelled: the 64 bits are taken
    from Faker's generator. *)
Definition _trace : M string :=
  u <- faker_next ;; ret (hex_digits 16 (u mod 2 ^ 64)%N).

(** ** Data generation constants *)

Definition SERVICES : list string :=
  [ "api-gateway"; "auth-service"; "payment-service";
    "user-service"; "notification-service"; "search-service";
    "order-service"; "inventory-service" ].

Definition HOSTS : list string :=
  [ "prod-web-01"; "prod-web-02"; "prod-web-03";
    "prod-app-01"; "prod-app-02";
    "prod-db-01"; "prod-db-02";
    "prod-cache-01" ].

Definition LOG_LEVELS_NORMAL : list string :=
  [ "INFO"; "DEBUG"; "INFO"; "INFO"; "WARN"; "INFO" ].

Definition LOG_LEVELS_INCIDENT : list string :=
  [ "ERROR"; "CRITICAL"; "ERROR"; "FATAL"; "ERROR"; "WARN" ].

Definition NORMAL_MESSAGES : list string :=
  [ "Request processed successfully in {t}ms";
    "Health check passed for {service}";
    "Connection pool at {n}% capacity";
    "Cache hit ratio: {n}%";
    "Scheduled task completed: cleanup_old_sessions";
    "User authentication successful for user_id={uid}";
    "Database query executed in {t}ms";
    "Rate limiter reset for {service}" ].

Definition ERROR_MESSAGES_BY_SCENARIO : gmap string (list string) :=
  list_to_map
  [ ("cpu_spike",
     [ "CPU throttling detected on {host}: usage at {n}%";
       "Thread pool exhausted on {host}, {n} tasks queued";
       "Request timeout after 30000ms on {service}";
       "GC pause exceeded threshold: {t}ms on {host}";
       "Load balancer health check failed for {host}" ]);
    ("oom_crash",
     [ "OutOfMemoryError: Java heap space on {host}";
       "Container killed by OOM killer: {service} on {host}";
       "Memory allocation failed: requested {n}MB, available 12MB";
       "Pod {service} restarting due to OOMKilled on {host}";
       "Heap dump generated: /var/log/{service}/heap_{t}.hprof" ]);
    ("cascading_failure",
     [ "Connection refused to {service} from {host}";
       "Circuit breaker OPEN for {service}: 15 failures in 60s";
       "Downstream dependency {service} unavailable, returning 503";
       "Retry exhausted for {service} after 3 attempts";
       "Dead letter queue growing: {n} messages pending for {service}";
       "Cascading timeout: {service} -> payment-service -> auth-service" ]) ].

(** [d[key]] on a dict: [KeyError] when the key is absent. *)
Definition subscript {V} (d : gmap string V) (key : string) : M V :=
  match d !! key with
  | Some v => ret v
  | None => raise (KeyError key)
  end.

(** ** Data generators *)

(** The dict display both log generators append. *)
Definition log_doc (ts : value) (service level msg host trace_id : string) : dict :=
  dict_literal
    [ ("_index", VStr "soc-logs");
      ("@timestamp", ts);
      ("service", VStr service);
      ("level", VStr level);
      ("message", VStr msg);
      ("host", VStr host);
      ("trace_id", VStr trace_id) ].

(** The dict display both metric generators append. *)
Definition metric_doc (ts : value) (host : string) (cpu mem disk_io : Q)
    (net_in net_out : Z) : dict :=
  dict_literal
    [ ("_index", VStr "soc-metrics");
      ("@timestamp", ts);
      ("host", VStr host);
      ("cpu_pct", VFloat cpu);
      ("mem_pct", VFloat mem);
      ("disk_io", VFloat disk_io);
      ("net_in", VInt net_in);
      ("net_out", VInt net_out) ].

(** The four generators.  A [None] count is the default of the parameter.
    The calls are made in the order in which Python evaluates them: the
    assignments of an iteration first, then the items of the dict display
    from top to bottom, so [_ts] is called where [@timestamp] stands. *)
Definition generate_normal_logs (base : datetime) (count : option Z) : M (list dict) :=
  let count := default 200 count in
  for_range count
    (offset <- random_uniform (-60) 0 ;;
     service <- random_choice SERVICES ;;
     host <- random_choice HOSTS ;;
     msg_template <- random_choice NORMAL_MESSAGES ;;
     t <- random_randint 2 500 ;;
     n <- random_randint 10 95 ;;
     uid <- fake_random_int 1000 99999 ;;
     msg <- str_format msg_template
              [ ("t", str_of_int t); ("service", service);
                ("n", str_of_int n); ("uid", str_of_int uid) ] ;;
     ts <- _ts base offset ;;
     level <- random_choice LOG_LEVELS_NORMAL ;;
     trace_id <- _trace ;;
     ret (log_doc ts service level msg host trace_id)).

Definition generate_incident_logs (base : datetime) (scenario : string)
    (count : option Z) : M (list dict) :=
  let count := default 80 count in
  error_msgs <- subscript ERROR_MESSAGES_BY_SCENARIO scenario ;;
  for_range count
    (offset <- random_uniform (-15) 0 ;;
     service <- random_choice (take 4 SERVICES) ;;
     host <- random_choice (take 4 HOSTS) ;;
     msg_template <- random_choice error_msgs ;;
     n <- random_randint 85 100 ;;
     t <- random_randint 1000 30000 ;;
     msg <- str_format msg_template
              [ ("host", host); ("service", service);
                ("n", str_of_int n); ("t", str_of_int t) ] ;;
     ts <- _ts base offset ;;
     level <- random_choice LOG_LEVELS_INCIDENT ;;
     trace_id <- _trace ;;
     ret (log_doc ts service level msg host trace_id)).

Definition generate_normal_metrics (base : datetime) (count : option Z) : M (list dict) :=
  let count := default 100 count in
  for_range count
    (offset <- random_uniform (-60) 0 ;;
     host <- random_choice HOSTS ;;
     ts <- _ts base offset ;;
     cpu <- random_uniform 10 55 ;;
     mem <- random_uniform 30 70 ;;
     disk_io <- random_uniform (1 # 2) 20 ;;
     net_in <- random_randint 100000 5000000 ;;
     net_out <- random_randint 50000 3000000 ;;
     ret (metric_doc ts host (py_round cpu 1) (py_round mem 1)
                     (py_round disk_io 2) net_in net_out)).

Definition generate_incident_metrics (base : datetime) (scenario : string)
    (count : option Z) : M (list dict) :=
  let count := default 50 count in
  target_hosts <- random_sample (take 4 HOSTS) 2 ;;
  for_range count
    (offset <- random_uniform (-15) 0 ;;
     host <- random_choice target_hosts ;;
     cpu_mem <-
       (if String.eqb scenario "cpu_spike" then
          cpu <- random_uniform 92 100 ;;
          mem <- random_uniform 60 80 ;;
          ret (py_round cpu 1, py_round mem 1)
        else if String.eqb scenario "oom_crash" then
          cpu <- random_uniform 50 75 ;;
          mem <- random_uniform 95 100 ;;
          ret (py_round cpu 1, py_round mem 1)
        else (* cascading_failure *)
          cpu <- random_uniform 80 98 ;;
          mem <- random_uniform 75 95 ;;
          ret (py_round cpu 1, py_round mem 1)) ;;
     ts <- _ts base offset ;;
     disk_io <- random_uniform 50 200 ;;
     net_in <- random_randint 10000000 50000000 ;;
     net_out <- random_randint 5000000 30000000 ;;
     ret (metric_doc ts host cpu_mem.1 cpu_mem.2
                     (py_round disk_io 2) net_in net_out)).

(** ** Historical incidents knowledge base *)

(** The double-quote character, for the one runbook that contains it. *)
Definition dq : string := String (ascii_of_nat 34) EmptyString.

Definition HISTORICAL_INCIDENTS : list dict :=
  [
    dict_literal
      [ ("incident_id", VStr "INC-001");
        ("title", VStr "Payment service OOM crash during Black Friday surge");
        ("root_cause", VStr "Memory leak in payment-service connection pool. The JDBC connection pool was not releasing connections on transaction timeout, leading to heap exhaustion under load.");
        ("resolution", VStr "Patched connection pool library to v3.2.1, added connection timeout of 30s, increased heap to 4GB, and added memory-based autoscaling.");
        ("services_affected", VStrs ["payment-service"; "order-service"; "api-gateway"]);
        ("severity", VStr "critical");
        ("duration_min", VInt 45);
        ("tags", VStrs ["oom"; "memory"; "payment"; "connection-pool"; "black-friday"]);
        ("runbook", VStr "When payment-service experiences OOM: 1) Check heap usage with `kubectl top pods -n payments`. 2) If heap > 90%, restart the pod: `kubectl rollout restart deployment/payment-service`. 3) Check connection pool metrics: `GET /actuator/metrics/hikaricp.connections.active`. 4) If connections are not being released, apply hotfix: scale up replicas to 5 and patch connection timeout. 5) Monitor for 15 minutes. 6) If issue persists, failover to payment-service-backup.") ];
    dict_literal
      [ ("incident_id", VStr "INC-002");
        ("title", VStr "API Gateway CPU spike from recursive middleware loop");
        ("root_cause", VStr "A misconfigured middleware in api-gateway caused a recursive call loop when processing requests with specific headers. CPU spiked to 100% across all gateway pods.");
        ("resolution", VStr "Identified the faulty middleware rule via CPU profiling, rolled back to previous gateway config version, added middleware stack depth limit of 10.");
        ("services_affected", VStrs ["api-gateway"; "auth-service"]);
        ("severity", VStr "critical");
        ("duration_min", VInt 32);
        ("tags", VStrs ["cpu"; "api-gateway"; "middleware"; "recursion"; "config"]);
        ("runbook", VStr "When api-gateway CPU spikes above 95%: 1) Check recent config deployments: `kubectl get configmap api-gateway-config -o yaml`. 2) Compare with last known good config. 3) If config changed recently, rollback: `kubectl rollout undo deployment/api-gateway`. 4) If CPU stays high, check for recursive middleware: `curl localhost:8080/actuator/threaddump | grep middleware`. 5) Scale up to absorb traffic while investigating.") ];
    dict_literal
      [ ("incident_id", VStr "INC-003");
        ("title", VStr "Cascading failure from auth-service certificate expiry");
        ("root_cause", VStr "TLS certificate for auth-service expired at 00:00 UTC. All services depending on auth-service started failing, creating a cascade. Circuit breakers activated but the retry storms amplified the load.");
        ("resolution", VStr "Renewed TLS certificate, restarted auth-service, then gradually reopened circuit breakers across dependent services. Added certificate expiry monitoring to prevent recurrence.");
        ("services_affected", VStrs ["auth-service"; "api-gateway"; "payment-service"; "user-service"; "order-service"]);
        ("severity", VStr "critical");
        ("duration_min", VInt 67);
        ("tags", VStrs ["cascading"; "tls"; "certificate"; "auth"; "circuit-breaker"]);
        ("runbook", VStr "When auth-service connections are refused across multiple services: 1) Check auth-service TLS cert: `openssl s_client -connect auth-service:443 2>/dev/null | openssl x509 -noout -dates`. 2) If cert expired, renew immediately: `certbot renew --deploy-hook 'kubectl rollout restart deployment/auth-service'`. 3) After auth is back, reset circuit breakers on dependent services one at a time, starting with api-gateway. 4) Monitor error rates for 30 minutes before declaring resolved.") ];
    dict_literal
      [ ("incident_id", VStr "INC-004");
        ("title", VStr "Search service latency spike from unoptimized Elasticsearch query");
        ("root_cause", VStr "A new feature deployment included a wildcard query on a large index without proper filters, causing ES cluster CPU to saturate and search latency to spike to 15s.");
        ("resolution", VStr "Identified the offending query via slow query log, added index filters and pagination, redeployed search-service with the fix.");
        ("services_affected", VStrs ["search-service"]);
        ("severity", VStr "high");
        ("duration_min", VInt 22);
        ("tags", VStrs ["latency"; "elasticsearch"; "query"; "search"]);
        ("runbook", VStr ("When search-service latency exceeds 5s: 1) Check ES slow query log: `GET /_nodes/stats/indices/search`. 2) Identify the slow query. 3) If wildcard query, add filters or convert to prefix query. 4) If cluster CPU > 90%, enable circuit breaker: `PUT /_cluster/settings {" ++ dq ++ "transient" ++ dq ++ ": {" ++ dq ++ "indices.breaker.total.limit" ++ dq ++ ": " ++ dq ++ "70%" ++ dq ++ "}}`. 5) Redeploy search-service with fix.")) ];
    dict_literal
      [ ("incident_id", VStr "INC-005");
        ("title", VStr "Database connection exhaustion on prod-db-01");
        ("root_cause", VStr "A background job in user-service opened database connections without closing them properly. After 6 hours of running, all 200 connection slots on prod-db-01 were consumed.");
        ("resolution", VStr "Killed the runaway background job, released stale connections, patched user-service to use connection pooling with max 20 connections per service instance.");
        ("services_affected", VStrs ["user-service"; "auth-service"; "order-service"]);
        ("severity", VStr "high");
        ("duration_min", VInt 38);
        ("tags", VStrs ["database"; "connections"; "leak"; "user-service"; "production"]);
        ("runbook", VStr "When database connections are exhausted: 1) Check active connections: `SELECT count(*) FROM pg_stat_activity WHERE state = 'active'`. 2) Identify the service holding most connections: `SELECT application_name, count(*) FROM pg_stat_activity GROUP BY application_name ORDER BY count DESC`. 3) Kill idle connections: `SELECT pg_terminate_backend(pid) FROM pg_stat_activity WHERE state = 'idle' AND query_start < NOW() - interval '10 minutes'`. 4) Restart the offending service. 5) Add connection pool limits.") ];
    dict_literal
      [ ("incident_id", VStr "INC-006");
        ("title", VStr "Notification service disk full causing message loss");
        ("root_cause", VStr "Notification service log volume on prod-app-02 filled the disk to 100%. The service could not write to its message queue, causing notifications to be silently dropped.");
        ("resolution", VStr "Cleared old logs, rotated log files, added log retention policy (7 days max, 10GB cap), added disk usage monitoring alert at 80%.");
        ("services_affected", VStrs ["notification-service"]);
        ("severity", VStr "medium");
        ("duration_min", VInt 18);
        ("tags", VStrs ["disk"; "logs"; "notification"; "message-loss"]);
        ("runbook", VStr "When disk usage exceeds 90% on any host: 1) Check what's consuming disk: `du -sh /var/log/* | sort -rh | head`. 2) If logs, rotate immediately: `logrotate -f /etc/logrotate.conf`. 3) Delete logs older than 7 days: `find /var/log -name '*.log' -mtime +7 -delete`. 4) Restart the affected service. 5) Verify message queue is draining: `curl localhost:8080/actuator/metrics/queue.size`.") ];
    dict_literal
      [ ("incident_id", VStr "INC-007");
        ("title", VStr "Cache stampede on prod-cache-01 after cold restart");
        ("root_cause", VStr "After a planned maintenance restart of prod-cache-01, all cached data was evicted. The simultaneous cache miss storm from all services overwhelmed the database backend.");
        ("resolution", VStr "Implemented cache warming script that pre-populates hot keys before bringing cache online. Added gradual traffic ramp-up after cache restart.");
        ("services_affected", VStrs ["api-gateway"; "search-service"; "user-service"; "order-service"]);
        ("severity", VStr "high");
        ("duration_min", VInt 25);
        ("tags", VStrs ["cache"; "stampede"; "cold-start"; "redis"]);
        ("runbook", VStr "After cache restart: 1) Run cache warming script before routing traffic: `python warm_cache.py --keys hot_keys.txt`. 2) Enable gradual traffic ramp: increase weight from 10% to 100% over 10 minutes. 3) Monitor cache hit ratio: should reach >80% within 5 minutes. 4) If DB load spikes, temporarily enable read replicas.") ];
    dict_literal
      [ ("incident_id", VStr "INC-008");
        ("title", VStr "Inventory service race condition causing overselling");
        ("root_cause", VStr "Concurrent stock decrement operations on inventory-service were not using optimistic locking. Under high load, multiple orders could reserve the same unit of stock.");
        ("resolution", VStr "Added optimistic locking with version check on inventory updates. Implemented idempotency keys for order placement. Added stock reconciliation job running every 5 minutes.");
        ("services_affected", VStrs ["inventory-service"; "order-service"]);
        ("severity", VStr "critical");
        ("duration_min", VInt 90);
        ("tags", VStrs ["race-condition"; "inventory"; "concurrency"; "data-integrity"]);
        ("runbook", VStr "When overselling is detected: 1) Immediately pause order intake: `kubectl scale deployment/order-service --replicas=0`. 2) Run stock reconciliation: `python reconcile_stock.py --fix`. 3) Contact affected customers. 4) Deploy fix with optimistic locking. 5) Resume order service with reduced replicas, monitor for 1 hour.") ]
  ].

(** [{**d, **other}]: the items of [other] are stored after those of [d],
    so [other] wins on a common key. *)
Definition dict_spread (d other : dict) : dict := other ∪ d.

Definition generate_incidents : M (list dict) :=
  for_each HISTORICAL_INCIDENTS (fun inc =>
    now <- datetime_now ;;
    days <- random_randint 7 180 ;;
    created <- datetime_add now (- timedelta_days days) ;;
    ret (<["created_at" := VDate created]>
           (dict_spread (dict_literal [ ("_index", VStr "soc-incidents") ]) inc))).

(** ** Index mappings and seeding *)

(** [MAPPINGS]: for each index, its properties as (field, type, sub-fields). *)
Definition MAPPINGS : list (string * list (string * string * list (string * string))) :=
  [ ("soc-logs",
     [ ("@timestamp", "date", []);
       ("service", "keyword", []);
       ("level", "keyword", []);
       ("message", "text", []);
       ("host", "keyword", []);
       ("trace_id", "keyword", []) ]);
    ("soc-metrics",
     [ ("@timestamp", "date", []);
       ("host", "keyword", []);
       ("cpu_pct", "float", []);
       ("mem_pct", "float", []);
       ("disk_io", "float", []);
       ("net_in", "long", []);
       ("net_out", "long", []) ]);
    ("soc-incidents",
     [ ("incident_id", "keyword", []);
       ("title", "text", [ ("keyword", "keyword") ]);
       ("root_cause", "text", []);
       ("resolution", "text", []);
       ("services_affected", "keyword", []);
       ("severity", "keyword", []);
       ("duration_min", "integer", []);
       ("created_at", "date", []);
       ("tags", "keyword", []);
       ("runbook", "text", []) ]);
    ("soc-actions",
     [ ("@timestamp", "date", []);
       ("action_type", "keyword", []);
       ("description", "text", []);
       ("confidence", "integer", []);
       ("status", "keyword", []);
       ("incident_ref", "keyword", []) ]) ].

(** [seed_scenario(es, scenario)] up to its call of [helpers.bulk]: the
    result is [all_docs], the batch handed to the bulk insert. *)
Definition seed_scenario (scenario : string) : M (list dict) :=
  now <- datetime_now ;;
  normal_logs <- generate_normal_logs now (Some 200) ;;
  normal_metrics <- generate_normal_metrics now (Some 100) ;;
  incident_logs <- generate_incident_logs now scenario (Some 80) ;;
  incident_metrics <- generate_incident_metrics now scenario (Some 50) ;;
  incidents <- generate_incidents ;;
  ret (normal_logs ++ normal_metrics ++ incident_logs ++ incident_metrics
       ++ incidents)%list.

(** The datastore as far as the seeder relies on it: an index holds the
    mapping it was created with and the documents written to it, and a bulk
    write sends each document to the index its [_index] key names.  The
    client is an external service; this is its interface, not its code. *)
Abbreviation index_properties := (list (string * string * list (string * string)))
  (only parsing).
Abbreviation es_state := (gmap string (index_properties * list dict)) (only parsing).

(** [create_indices(es)]: every index of [MAPPINGS] is deleted when it
    exists, then created with its mapping. *)
Definition create_indices (es : es_state) : es_state :=
  foldl (fun es (entry : string * index_properties) =>
           let es := if decide (is_Some (es !! entry.1)) then delete entry.1 es else es in
           <[entry.1 := (entry.2, [])]> es)
        es MAPPINGS.

Definition bulk_index (es : es_state) (d : dict) : es_state :=
  match d !! "_index" with
  | Some (VStr index_name) =>
      match es !! index_name with
      | Some (mapping, docs) =>
          <[index_name := (mapping, (docs ++ [delete "_index" d])%list)]> es
      | None => <[index_name := ([], [delete "_index" d])]> es
      end
  | _ => es
  end.

(** [helpers.bulk(es, all_docs, raise_on_error=False)] *)
Definition helpers_bulk (es : es_state) (docs : list dict) : es_state :=
  foldl bulk_index es docs.

(** A clock that reads [f i] microseconds after the epoch at its [i]-th
    reading, and stops at the last instant of [datetime]. *)
Definition capped (f : nat -> N) : nat -> Z :=
  fun i => Z.min (Z.of_N (f i)) datetime_max.

Definition capped_in_range (f : nat -> N) (i : nat) :
    unix_epoch <= capped f i <= datetime_max :=
  conj (Z.min_glb _ _ _ (N2Z.is_nonneg (f i)) (Zle_bool_imp_le 0 datetime_max eq_refl))
       (Z.le_min_r _ _).

(** A world for examples: every source answers with a fixed arithmetic
    progression. *)
Definition sample_world : world :=
  World (fun i => 7919 * N.of_nat i + 13)%N 0
        (fun i => 104729 * N.of_nat i + 5)%N 0
        (capped (fun i => 1700000000000000 + 250 * N.of_nat i)%N) 0
        (capped_in_range _).

Definition result_value {A} (r : result A) : option A :=
  match r with Ok a _ => Some a | Raise _ => None end.


(** ** Specification vocabulary *)

(** The three scenarios [main] offers. *)
Definition scenarios : list string := [ "cpu_spike"; "oom_crash"; "cascading_failure" ].

Definition minute : timedelta := 60000000.
Definition day : timedelta := 86400000000.

(** [m] run in [w] returns a value and a world that satisfy [Q], or raises
    an exception that [E] allows. *)
Definition wpe {A} (E : exn -> Prop) (m : M A) (Q : A -> world -> Prop)
    (w : world) : Prop :=
  match m w with
  | Ok a w' => Q a w'
  | Raise e => E e
  end.

(** No exception is allowed: [wp m Q w] says that [m] returns. *)
Definition never : exn -> Prop := fun _ => False.
Abbreviation wp := (wpe never) (only parsing).

(** [base] is late enough for a look-back of [window]: every instant of
    [base - window, base] is a [datetime]. *)
Definition anchor_in_range (window : timedelta) (base : datetime) : Prop :=
  datetime_min + window <= base <= datetime_max.

(** The one exception a generator may raise on a known scenario: the
    [OverflowError] of an anchor too close to [datetime_min]. *)
Definition overflow_excuse (window : timedelta) (base : datetime) : exn -> Prop :=
  fun e => e = OverflowError /\ ~ anchor_in_range window base.

(** The run [r] of a generator anchored at [base] returned a list of
    documents that satisfies [R]; it may have raised [OverflowError]
    instead only if [base] is not late enough for a look-back of [window]. *)
Definition returns_anchored (window : timedelta) (base : datetime)
    (r : result (list dict)) (R : list dict -> Prop) : Prop :=
  match r with
  | Ok docs _ => R docs
  | Raise e => overflow_excuse window base e
  end.

(** The run [r] returned a list of documents that all satisfy [P]. *)
Definition returns_all (r : result (list dict)) (P : dict -> Prop) : Prop :=
  exists docs w', r = Ok docs w' /\ Forall P docs.

(** Field [key] of [d] is a string of [allowed]. *)
Definition str_field_in (key : string) (allowed : list string) (d : dict) : Prop :=
  exists s, d !! key = Some (VStr s) /\ s ∈ allowed.

(** The timestamp of [d] is an instant of [lo, hi]. *)
Definition timestamp_within (lo hi : datetime) (d : dict) : Prop :=
  exists t, d !! "@timestamp" = Some (VDate t) /\ lo <= t <= hi.

(** Field [key] of [d] is a float of [lo, hi]. *)
Definition float_field_within (key : string) (lo hi : Q) (d : dict) : Prop :=
  exists q, d !! key = Some (VFloat q) /\ (lo <= q <= hi)%Q.

(** Field [key] of [d] is an int of [lo, hi]. *)
Definition int_field_within (key : string) (lo hi : Z) (d : dict) : Prop :=
  exists n, d !! key = Some (VInt n) /\ lo <= n <= hi.

(** From [w] to [w'] the clock was not read and [k] numbers were drawn
    from [random]. *)
Definition draws (k : nat) (w w' : world) : Prop :=
  clock_src w' = clock_src w /\ clock_pos w' = clock_pos w /\
  random_src w' = random_src w /\ random_pos w' = (random_pos w + k)%nat.

(** The host of a record of [generate_incident_metrics], by the draw that
    chose it among the two targets [h1], [h2]: a record takes seven draws
    from position [pos] of the stream [src], and [random.choice] of its host
    is the second of them. *)
Definition target_at (src : nat -> N) (pos : nat) (h1 h2 : string) : string :=
  nth (Z.to_nat (Z.of_N (src (pos + 1)%nat) mod 2)) [h1; h2] h1.

(** The host of the [i]-th record of a call of [generate_incident_metrics]
    started in [w]: two draws select the targets, then each record takes
    seven. *)
Definition chosen_target (w : world) (h1 h2 : string) (i : nat) : string :=
  target_at (random_src w) (random_pos w + 2 + 7 * i)%nat h1 h2.

(** The numeric ranges a metric sample is drawn from. *)
Record metric_ranges := MetricRanges {
  cpu_range : Q * Q;
  mem_range : Q * Q;
  disk_range : Q * Q;
  net_in_range : Z * Z;
  net_out_range : Z * Z
}.

(** The arguments of the draws in [generate_normal_metrics]. *)
Definition normal_ranges : metric_ranges :=
  MetricRanges (10, 55)%Q (30, 70)%Q (1 # 2, 20)%Q (100000, 5000000) (50000, 3000000).

(** The arguments of the draws in [generate_incident_metrics], branch by
    branch of its [if]/[elif]/[else]. *)
Definition incident_ranges (scenario : string) : metric_ranges :=
  MetricRanges
    (if String.eqb scenario "cpu_spike" then (92, 100)%Q
     else if String.eqb scenario "oom_crash" then (50, 75)%Q else (80, 98)%Q)
    (if String.eqb scenario "cpu_spike" then (60, 80)%Q
     else if String.eqb scenario "oom_crash" then (95, 100)%Q else (75, 95)%Q)
    (50, 200)%Q (10000000, 50000000) (5000000, 30000000).

(** [d] is a log entry stamped within [window] before [base], with its
    service, host and level taken from the given lists. *)
Definition log_entry (base : datetime) (window : timedelta)
    (services hosts levels : list string) (d : dict) : Prop :=
  exists t service level msg host trace_id,
    d = log_doc (VDate t) service level msg host trace_id /\
    base - window <= t <= base /\
    service ∈ services /\ host ∈ hosts /\ level ∈ levels.

(** [d] is a metric sample stamped within [window] before [base], of one of
    [hosts], with every number in its range of [r]. *)
Definition metric_sample (base : datetime) (window : timedelta)
    (hosts : list string) (r : metric_ranges) (d : dict) : Prop :=
  exists t host cpu mem disk_io net_in net_out,
    d = metric_doc (VDate t) host cpu mem disk_io net_in net_out /\
    base - window <= t <= base /\ host ∈ hosts /\
    ((cpu_range r).1 <= cpu <= (cpu_range r).2)%Q /\
    ((mem_range r).1 <= mem <= (mem_range r).2)%Q /\
    ((disk_range r).1 <= disk_io <= (disk_range r).2)%Q /\
    (net_in_range r).1 <= net_in <= (net_in_range r).2 /\
    (net_out_range r).1 <= net_out <= (net_out_range r).2.

(** The string at field [key] of every document that has one. *)
Definition str_fields (key : string) (docs : list dict) : list string :=
  omap (fun d : dict => match d !! key with Some (VStr s) => Some s | _ => None end) docs.

(** The content fields of an incident record. *)
Definition content_fields : list string :=
  [ "incident_id"; "title"; "root_cause"; "resolution"; "services_affected";
    "severity"; "duration_min"; "tags"; "runbook" ].

(** The indices that generated documents are written to. *)
Definition populated_indices : list string := [ "soc-logs"; "soc-metrics"; "soc-incidents" ].

(** [d] is the catalog entry [inc] with the index name and a creation
    instant a whole number of days, 7 to 180, before [now]. *)
Definition incident_doc (inc : dict) (now : datetime) (d : dict) : Prop :=
  exists days,
    7 <= days <= 180 /\
    d = <["created_at" := VDate (now - timedelta_days days)]>
          (dict_spread (dict_literal [ ("_index", VStr "soc-incidents") ]) inc).

(** The [i]-th reading of the clock after the state [w]. *)
Definition clock_reading (w : world) (i : nat) : datetime :=
  clock_src w (clock_pos w + i)%nat.

(** The creation instant of an incident document. *)
Definition created_at (d : dict) : option value := d !! "created_at".

(** A document of the incident knowledge base is created a whole number of
    days, 7 to 180, before the clock reading taken for it. *)
Definition created_days_before (now : datetime) (d : dict) : Prop :=
  exists days, 7 <= days <= 180 /\ created_at d = Some (VDate (now - days * day)).

(** The world of a host whose clock ticks once per millisecond, read eight
    times within one tick, with two equal draws of the day offset. *)
Definition coarse_clock_world : world :=
  World (fun i => 31 + 174 * N.of_nat i)%N 0
        (fun _ => 0%N) 0
        (capped (fun _ => 1700000000000000%N)) 0
        (capped_in_range _).

(** A world whose [random] generator always answers [k]. *)
Definition constant_world (k : N) : world :=
  World (fun _ => k) 0 (fun _ => 0%N) 0
        (capped (fun _ => 1700000000000000%N)) 0 (capped_in_range _).

(** Field [key] of each document a run returned. *)
Definition fields_of (key : string) (r : result (list dict)) : option (list (option value)) :=
  match r with
  | Ok docs _ => Some (map (fun d : dict => d !! key) docs)
  | Raise _ => None
  end.

(** ** Connection and entry point *)

(** The client [get_es_client] builds, by the constructor call it makes. *)
Inductive es_client :=
  | ClientCloud (cloud_id api_key : string)
  | ClientUrlKey (url api_key : string)
  | ClientUrl (url : string).

(** Truth value of a Python [str]: false for the empty string only. *)
Definition truthy (s : string) : bool := negb (String.eqb s "").

(** [get_es_client()], with the three module constants read from the
    environment as arguments; [inr code] is [sys.exit(code)]. *)
Definition get_es_client (ES_URL ES_API_KEY ES_CLOUD_ID : string) : es_client + Z :=
  if truthy ES_CLOUD_ID && truthy ES_API_KEY then inl (ClientCloud ES_CLOUD_ID ES_API_KEY)
  else if truthy ES_URL && truthy ES_API_KEY then inl (ClientUrlKey ES_URL ES_API_KEY)
  else if truthy ES_URL then inl (ClientUrl ES_URL)
  else inr 1.

(** The part of [main] that decides which scenarios are seeded and seeds
    them.  [line] is what [input] returned; [str_strip] and [int_of_str]
    stand for [str.strip] and [int] ([None] when [int] raises [ValueError]),
    whose parsing rules are not modelled.  The list [scenarios] is the local
    list of [main]. *)
Section Main.
Variable str_strip : string -> string.
Variable int_of_str : string -> option Z.

Definition chosen_scenarios (line : string) : exn + list string :=
  let choice := if truthy (str_strip line) then str_strip line else "4" in
  if String.eqb choice "4" then inr scenarios
  else
    match int_of_str choice with
    | None => inl ValueError
    | Some n =>
        let idx := n - 1 in
        if decide (0 <= idx < Z.of_nat (length scenarios))
        then inr [ nth (Z.to_nat idx) scenarios "" ]
        else inr scenarios
    end.

(** The batches [main] has [seed_scenario] assemble, one per seeded
    scenario. *)
Definition main_seed (line : string) : M (list (list dict)) :=
  match chosen_scenarios line with
  | inl e => raise e
  | inr chosen => for_each chosen seed_scenario
  end.
End Main.

(** A value that an index field of type [ty] accepts: a [keyword] field
    holds a string or a list of strings. *)
Definition value_has_type (ty : string) (v : value) : bool :=
  match v with
  | VStr _ => String.eqb ty "keyword" || String.eqb ty "text"
  | VStrs _ => String.eqb ty "keyword"
  | VInt _ => String.eqb ty "long" || String.eqb ty "integer"
  | VFloat _ => String.eqb ty "float"
  | VDate _ => String.eqb ty "date"
  end.

(** [d] has exactly the fields of [properties] besides its [_index], each
    with a value of the declared type. *)
Definition conforms_to (properties : index_properties) (d : dict) : Prop :=
  dom (delete "_index" d) = list_to_set (properties.*1.*1) /\
  Forall (fun p : string * string * list (string * string) =>
            exists v, d !! p.1.1 = Some v /\ value_has_type p.1.2 v = true)
         properties.

(** [d] names an index of [MAPPINGS] and conforms to its mapping. *)
Definition well_formed (d : dict) : Prop :=
  exists index_name properties,
    d !! "_index" = Some (VStr index_name) /\
    (index_name, properties) ∈ MAPPINGS /\
    conforms_to properties d.

(** The strings of a list-of-strings field. *)
Definition strs_field (key : string) (d : dict) : list string :=
  match d !! key with
  | Some (VStrs l) => l
  | _ => []
  end.

(** No character of [s] is a brace: no replacement field is left in it. *)
Definition brace_free (s : string) : bool :=
  forallb (fun c => negb (Ascii.eqb c "{" || Ascii.eqb c "}"))
          (list_ascii_of_string s).

(** Every character of [s] is a lowercase hexadecimal digit. *)
Definition hex_string (s : string) : bool :=
  forallb (fun c => existsb (Ascii.eqb c) (list_ascii_of_string "0123456789abcdef"))
          (list_ascii_of_string s).

(** The message of [d] has no brace left, and its trace id is 16 lowercase
    hexadecimal digits. *)
Definition log_text_ok (d : dict) : Prop :=
  exists msg trace_id,
    d !! "message" = Some (VStr msg) /\ brace_free msg = true /\
    d !! "trace_id" = Some (VStr trace_id) /\
    String.length trace_id = 16%nat /\ hex_string trace_id = true.

(** The message of the normal log [d] is a template of [NORMAL_MESSAGES]
    formatted with the service of [d] and numbers in the ranges drawn. *)
Definition normal_message_ok (d : dict) : Prop :=
  exists template service msg t n uid,
    template ∈ NORMAL_MESSAGES /\
    d !! "service" = Some (VStr service) /\ d !! "message" = Some (VStr msg) /\
    2 <= t <= 500 /\ 10 <= n <= 95 /\ 1000 <= uid <= 99999 /\
    format_go [ ("t", str_of_int t); ("service", service);
                ("n", str_of_int n); ("uid", str_of_int uid) ] None template
    = inr msg.

(** The message of the incident log [d] is one of [templates] formatted with
    the host and the service of [d] and numbers in the ranges drawn. *)
Definition incident_message_ok (templates : list string) (d : dict) : Prop :=
  exists template service host msg n t,
    template ∈ templates /\
    d !! "service" = Some (VStr service) /\ d !! "host" = Some (VStr host) /\
    d !! "message" = Some (VStr msg) /\
    85 <= n <= 100 /\ 1000 <= t <= 30000 /\
    format_go [ ("host", host); ("service", service);
                ("n", str_of_int n); ("t", str_of_int t) ] None template
    = inr msg.

(** ** Rules for running generators *)

Section Rules.
Context {A B : Type} {E : exn -> Prop}.
Implicit Types (m : M A) (f : A -> M B) (w : world).

Lemma wp_ret (a : A) (Q : A -> world -> Prop) w : Q a w -> wpe E (ret a) Q w.
Proof. done. Qed.

Lemma wp_bind m f (Q : B -> world -> Prop) w :
  wpe E m (fun a w' => wpe E (f a) Q w') w -> wpe E (x <- m ;; f x) Q w.
Proof. unfold wpe, bind. by destruct (m w). Qed.

Lemma wp_mono m (Q Q' : A -> world -> Prop) w :
  wpe E m Q w -> (forall a w', Q a w' -> Q' a w') -> wpe E m Q' w.
Proof. unfold wpe. destruct (m w); naive_solver. Qed.

Lemma wp_excuse (E' : exn -> Prop) m (Q : A -> world -> Prop) w :
  (forall e, E e -> E' e) -> wpe E m Q w -> wpe E' m Q w.
Proof. unfold wpe. destruct (m w); naive_solver. Qed.

Lemma wp_intro m (Q : A -> world -> Prop) w a w' :
  m w = Ok a w' -> Q a w' -> wpe E m Q w.
Proof. unfold wpe. by intros ->. Qed.
End Rules.

Section Returns.
Context {A : Type}.
Implicit Types (m : M A) (Q : A -> world -> Prop) (w : world).

Lemma wp_returns m Q w :
  wp m Q w <-> exists a w', m w = Ok a w' /\ Q a w'.
Proof.
  unfold wpe. split.
  - destruct (m w) as [a w'|e]; [eauto | done].
  - by intros (a & w' & -> & HQ).
Qed.

Lemma wp_run m Q w :
  wp m Q w -> exists a w', m w = Ok a w' /\ Q a w'.
Proof. apply wp_returns. Qed.
End Returns.

Lemma draws_trans (a b : nat) w1 w2 w3 :
  draws a w1 w2 -> draws b w2 w3 -> draws (a + b) w1 w3.
Proof.
  unfold draws. intros (-> & -> & -> & ->) (-> & -> & -> & ->).
  split_and!; [done..|lia].
Qed.

Ltac solve_draws :=
  unfold draws; cbn [clock_src clock_pos random_src random_pos];
  split_and!; [done..|lia].

(** A generator that may only raise the [OverflowError] of an anchor out of
    range never raises when the anchor is in range. *)
Lemma in_range_never (window : timedelta) (base : datetime) (e : exn) :
  anchor_in_range window base -> overflow_excuse window base e -> never e.
Proof. by intros Hin [_ Hout]. Qed.

Lemma anchor_in_range_shorter (window window' : timedelta) (base : datetime) :
  0 <= window' <= window ->
  anchor_in_range window base -> anchor_in_range window' base.
Proof. unfold anchor_in_range. lia. Qed.

(** A reading of the clock is late enough for every look-back of the
    program: an hour for the logs and metrics, 180 days for the incidents. *)
Lemma clock_reading_in_range w (i : nat) (window : timedelta) :
  0 <= window <= 180 * day -> anchor_in_range window (clock_src w i).
Proof.
  intros Hw. pose proof (clock_in_range w i) as Hi.
  unfold anchor_in_range, unix_epoch, datetime_min, datetime_max, day in *. lia.
Qed.

(** *** Arithmetic of the draws *)

Lemma unit_fraction_bounds (k : N) :
  (0 <= Z.of_N (k mod 2 ^ 53)%N # 2 ^ 53 < 1)%Q.
Proof.
  pose proof (N.mod_upper_bound k (2 ^ 53)%N ltac:(done)) as Hk.
  unfold Qle, Qlt. cbn [Qnum Qden].
  change (2 ^ 53)%N with (N.pos (2 ^ 53)) in *.
  generalize dependent (2 ^ 53)%positive. intros p.
  generalize (k mod N.pos p)%N. lia.
Qed.

Lemma uniform_bounds (a b r : Q) :
  (a <= b -> 0 <= r < 1 -> a <= a + (b - a) * r <= b)%Q.
Proof.
  intros Hab [Hr0 Hr1].
  assert (0 <= (b - a) * r)%Q as H0.
  { apply Qmult_le_0_compat; [|done]. by apply Qle_minus_iff in Hab. }
  assert ((b - a) * r <= (b - a) * 1)%Q as H1.
  { rewrite !(Qmult_comm (b - a)). apply Qmult_le_compat_r; [by apply Qlt_le_weak|].
    by apply Qle_minus_iff in Hab. }
  split; lra.
Qed.

Lemma round_half_even_bounds (x : Q) (lo hi : Z) :
  (inject_Z lo <= x <= inject_Z hi)%Q -> lo <= round_half_even x <= hi.
Proof.
  intros [Hlo Hhi]. unfold round_half_even.
  pose proof (Qfloor_le x) as Hfl.
  assert (lo <= Qfloor x) as Hlo'.
  { rewrite <- (Qfloor_Z lo). by apply Qfloor_resp_le. }
  assert (Qfloor x <= hi) as Hhi'.
  { rewrite <- (Qfloor_Z hi). by apply Qfloor_resp_le. }
  assert ((0 < x - inject_Z (Qfloor x))%Q -> Qfloor x + 1 <= hi) as Hup.
  { intros Hpos. cut (Qfloor x < hi); [lia|].
    rewrite Zlt_Qlt. lra. }
  destruct (Qcompare_spec (x - inject_Z (Qfloor x)) (1 # 2)) as [Heq|Hlt|Hgt].
  - destruct (Z.even (Qfloor x)); [lia|].
    split; [lia|]. apply Hup. lra.
  - lia.
  - split; [lia|]. apply Hup. lra.
Qed.

Lemma py_round_bounds (x lo hi : Q) (ndigits : nat) (L H : Z) :
  (lo == inject_Z L / inject_Z (10 ^ Z.of_nat ndigits))%Q ->
  (hi == inject_Z H / inject_Z (10 ^ Z.of_nat ndigits))%Q ->
  (lo <= x <= hi)%Q -> (lo <= py_round x ndigits <= hi)%Q.
Proof.
  intros Hlo Hhi. unfold py_round. rewrite Qred_correct, Hlo, Hhi.
  set (s := inject_Z (10 ^ Z.of_nat ndigits)).
  assert (0 < s)%Q as Hs.
  { unfold s. rewrite <- (Zlt_Qlt 0). lia. }
  intros [Hx1 Hx2].
  destruct (round_half_even_bounds (x * s) L H) as [Hr1 Hr2].
  { split.
    - assert (inject_Z L == inject_Z L / s * s)%Q as -> by (field; lra).
      apply Qmult_le_compat_r; [done | lra].
    - assert (inject_Z H == inject_Z H / s * s)%Q as -> by (field; lra).
      apply Qmult_le_compat_r; [done | lra]. }
  rewrite Zle_Qle in Hr1, Hr2.
  split; apply Qmult_le_compat_r; try done; apply Qlt_le_weak, Qinv_lt_0_compat, Hs.
Qed.

Lemma timedelta_minutes_bounds (m : Q) (lo : Z) :
  (inject_Z lo <= m <= 0)%Q -> lo * minute <= timedelta_minutes m <= 0.
Proof.
  intros [H1 H2]. unfold timedelta_minutes, minute.
  apply round_half_even_bounds. rewrite inject_Z_mult. split.
  - apply Qmult_le_compat_r; [done | done].
  - change (inject_Z 0) with (0 * inject_Z 60000000)%Q.
    apply Qmult_le_compat_r; [done | done].
Qed.

(** *** One rule per primitive *)

Section Primitives.
Context {A : Type} {E : exn -> Prop}.
Implicit Types (Q : A -> world -> Prop) (w : world).

Lemma wp_raise_never (e : exn) Q w : ~ wp (raise e) Q w.
Proof. by intros []. Qed.

Lemma wp_random_choice (seq : list A) Q w :
  seq <> [] ->
  (forall x w', x ∈ seq -> draws 1 w w' -> Q x w') ->
  wpe E (random_choice seq) Q w.
Proof.
  intros Hne HQ. destruct seq as [|x0 seq]; [done|].
  unfold wpe, random_choice, randbelow, random_next, bind, ret.
  apply HQ; [|solve_draws].
  apply list_elem_of_In, nth_In.
  pose proof (Z.mod_pos_bound (Z.of_N (random_src w (random_pos w)))
                (Z.of_nat (length (x0 :: seq))) ltac:(simpl; lia)).
  lia.
Qed.

(** The element [random.choice] returns, by the number it draws. *)
Lemma wp_random_choice_drawn (x0 : A) (seq : list A) Q w :
  (forall w', draws 1 w w' ->
     Q (nth (Z.to_nat (Z.of_N (random_src w (random_pos w))
                       mod Z.of_nat (length (x0 :: seq)))) (x0 :: seq) x0) w') ->
  wpe E (random_choice (x0 :: seq)) Q w.
Proof.
  intros HQ. unfold wpe, random_choice, randbelow, random_next, bind, ret.
  apply HQ. solve_draws.
Qed.

Lemma wp_subscript (d : gmap string A) (key : string) (v : A) Q w :
  d !! key = Some v -> Q v w -> wpe E (subscript d key) Q w.
Proof. intros Hk HQ. unfold subscript. by rewrite Hk. Qed.
End Primitives.

Section Draws.
Context {E : exn -> Prop}.
Implicit Types (w : world).

Lemma wp_random_uniform (a b : Q) (Q : Q -> world -> Prop) w :
  (a <= b)%Q ->
  (forall x w', (a <= x <= b)%Q -> draws 1 w w' -> Q x w') ->
  wpe E (random_uniform a b) Q w.
Proof.
  intros Hab HQ. unfold wpe, random_uniform, random_random, random_next, bind, ret.
  apply HQ; [|solve_draws]. apply uniform_bounds; [done|]. apply unit_fraction_bounds.
Qed.

Lemma wp_random_randint (a b : Z) (Q : Z -> world -> Prop) w :
  a <= b ->
  (forall i w', a <= i <= b -> draws 1 w w' -> Q i w') ->
  wpe E (random_randint a b) Q w.
Proof.
  intros Hab HQ. unfold random_randint. case_decide; [lia|].
  unfold wpe, randbelow, random_next, bind, ret. apply HQ; [|solve_draws].
  pose proof (Z.mod_pos_bound (Z.of_N (random_src w (random_pos w))) (b + 1 - a)).
  lia.
Qed.

Lemma wp_fake_random_int (a b : Z) (Q : Z -> world -> Prop) w :
  a <= b ->
  (forall i w', a <= i <= b -> draws 0 w w' -> Q i w') ->
  wpe E (fake_random_int a b) Q w.
Proof.
  intros Hab HQ. unfold fake_random_int. case_decide; [lia|].
  unfold wpe, faker_next, bind, ret. apply HQ; [|solve_draws].
  pose proof (Z.mod_pos_bound (Z.of_N (faker_src w (faker_pos w))) (b + 1 - a)).
  lia.
Qed.

Lemma wp_trace (Q : string -> world -> Prop) w :
  (forall s w', draws 0 w w' -> Q s w') -> wpe E _trace Q w.
Proof. intros HQ. unfold wpe, _trace, faker_next, bind, ret. apply HQ. solve_draws. Qed.

Lemma wp_datetime_now (Q : datetime -> world -> Prop) w :
  (forall w', clock_src w' = clock_src w -> clock_pos w' = S (clock_pos w) ->
              Q (clock_src w (clock_pos w)) w') ->
  wpe E datetime_now Q w.
Proof. intros HQ. unfold wpe, datetime_now. by apply HQ. Qed.

Lemma wp_datetime_add (t : datetime) (delta : timedelta)
    (Q : datetime -> world -> Prop) w :
  datetime_min <= t + delta <= datetime_max ->
  Q (t + delta) w -> wpe E (datetime_add t delta) Q w.
Proof. intros Hin HQ. unfold datetime_add. by case_decide. Qed.

Lemma wp_str_format (template : string) kwargs (Q : string -> world -> Prop) w :
  (exists s, format_go kwargs None template = inr s) ->
  (forall s, format_go kwargs None template = inr s -> Q s w) ->
  wpe E (str_format template kwargs) Q w.
Proof. intros [s Hs] HQ. unfold str_format. rewrite Hs. by apply HQ. Qed.

Lemma wp_repeatM {A} (body : M A) (P : A -> Prop) (n : nat) :
  (forall w, wpe E body (fun a _ => P a) w) ->
  forall w, wpe E (repeatM n body) (fun l _ => length l = n /\ Forall P l) w.
Proof.
  intros Hbody. induction n as [|n IH]; intros w; simpl.
  - by apply wp_ret.
  - apply wp_bind. eapply wp_mono; [apply Hbody|].
    intros a w1 Ha. cbv beta in *. apply wp_bind.
    eapply wp_mono; [apply IH|].
    intros l w2 [Hlen Hall]. cbv beta in *. apply wp_ret.
    split; [by rewrite <- Hlen | by constructor].
Qed.

(** A loop whose body takes [k] draws: its [i]-th element is made from the
    draws that start [k * i] after the first. *)
Lemma wp_repeatM_indexed {A} (k : nat) (body : M A)
    (P : (nat -> N) -> nat -> A -> Prop) (n : nat) :
  (forall w, wpe E body (fun a w' => draws k w w' /\
                                     P (random_src w) (random_pos w) a) w) ->
  forall w,
    wpe E (repeatM n body)
        (fun l w' =>
           draws (k * n) w w' /\ length l = n /\
           forall i a, l !! i = Some a ->
                       P (random_src w) (random_pos w + k * i)%nat a) w.
Proof.
  intros Hbody. induction n as [|n IH]; intros w; simpl repeatM.
  - apply wp_ret. split_and!; [solve_draws | done | done].
  - apply wp_bind. eapply wp_mono; [apply Hbody|].
    intros a w1 [Hw1 Ha]. cbv beta. apply wp_bind.
    eapply wp_mono; [apply IH|].
    intros l w2 (Hw2 & Hlen & Hall). cbv beta. apply wp_ret.
    split_and!.
    + replace (k * S n)%nat with (k + k * n)%nat by lia. by eapply draws_trans.
    + cbn. by rewrite Hlen.
    + intros [|i] b Hb; cbn in Hb.
      * injection Hb as <-. by rewrite Nat.mul_0_r, Nat.add_0_r.
      * destruct Hw1 as (_ & _ & Hsrc & Hpos). specialize (Hall i b Hb).
        rewrite Hsrc, Hpos in Hall.
        by replace (random_pos w + k * S i)%nat
             with (random_pos w + k + k * i)%nat by lia.
Qed.

Lemma wp_randbelow (n : Z) (Q : Z -> world -> Prop) w :
  0 < n ->
  (forall i w', 0 <= i < n -> draws 1 w w' -> Q i w') ->
  wpe E (randbelow n) Q w.
Proof.
  intros Hn HQ. unfold wpe, randbelow, random_next, bind, ret.
  apply HQ; [|solve_draws]. by apply Z.mod_pos_bound.
Qed.

(** [random.sample] of two out of four distinct elements: two distinct
    elements of the population, for two draws. *)
Lemma wp_random_sample_2_of_4 {A} (population : list A)
    (Q : list A -> world -> Prop) w :
  length population = 4%nat -> NoDup population ->
  (forall x y w', x <> y -> x ∈ population -> y ∈ population ->
                  draws 2 w w' -> Q [x; y] w') ->
  wpe E (random_sample population 2) Q w.
Proof.
  intros Hlen Hnd HQ.
  destruct population as [|a [|b [|c [|d [|? ?]]]]]; try done.
  apply NoDup_cons in Hnd as [Ha Hnd]. apply NoDup_cons in Hnd as [Hb Hnd].
  apply NoDup_cons in Hnd as [Hc _].
  repeat match goal with
         | H : _ ∉ _ :: _ |- _ => apply not_elem_of_cons in H as [? ?]
         end.
  unfold random_sample. case_decide; [|simpl in *; lia].
  change (Z.to_nat 2) with 2%nat. cbn [sample_pool length].
  apply wp_bind, wp_randbelow; [lia|]. intros i w1 Hi Hw1.
  assert (exists i', (i' < 4)%nat /\ Z.to_nat i = i') as (i' & Hi' & ->)
    by (eexists; split; [|done]; lia).
  destruct i' as [|[|[|[|?]]]]; [..|lia];
    cbn [lookup list_lookup Nat.sub insert list_insert];
    apply wp_bind, wp_bind, wp_randbelow; try lia; intros j w2 Hj Hw2;
    assert (exists j', (j' < 3)%nat /\ Z.to_nat j = j') as (j' & Hj' & ->)
      by (eexists; split; [|done]; lia).
  all: destruct j' as [|[|[|?]]]; [..|lia].
  all: cbn [lookup list_lookup Nat.sub insert list_insert].
  all: apply wp_bind, wp_ret, wp_ret, wp_ret, HQ.
  all: try congruence.
  all: try (by apply (draws_trans 1 1 w w1 w2)).
  all: repeat first [apply list_elem_of_here | apply list_elem_of_further].
Qed.
End Draws.

(** [_ts] stamps within the look-back; it raises only when the anchor is not
    late enough for it. *)
Lemma wp_ts (base : datetime) (offset : Q) (lo : Z) (Q : value -> world -> Prop) w :
  (inject_Z (- lo) <= offset <= 0)%Q ->
  (forall t, base - lo * minute <= t <= base -> Q (VDate t) w) ->
  wpe (overflow_excuse (lo * minute) base) (_ts base offset) Q w.
Proof.
  intros Hoffset HQ. apply timedelta_minutes_bounds in Hoffset.
  unfold _ts, datetime_add, wpe, bind. case_decide as Hin.
  - apply HQ. lia.
  - split; [done|]. unfold anchor_in_range. lia.
Qed.

(** *** The documents the generators build *)

Lemma log_doc_lookup ts service level msg host trace_id :
  let d := log_doc ts service level msg host trace_id in
  d !! "_index" = Some (VStr "soc-logs") /\
  d !! "@timestamp" = Some ts /\
  d !! "service" = Some (VStr service) /\
  d !! "level" = Some (VStr level) /\
  d !! "host" = Some (VStr host).
Proof. by vm_compute. Qed.

Lemma metric_doc_lookup ts host cpu mem disk_io net_in net_out :
  let d := metric_doc ts host cpu mem disk_io net_in net_out in
  d !! "_index" = Some (VStr "soc-metrics") /\
  d !! "@timestamp" = Some ts /\
  d !! "host" = Some (VStr host) /\
  d !! "service" = None /\
  d !! "cpu_pct" = Some (VFloat cpu) /\
  d !! "mem_pct" = Some (VFloat mem) /\
  d !! "disk_io" = Some (VFloat disk_io) /\
  d !! "net_in" = Some (VInt net_in) /\
  d !! "net_out" = Some (VInt net_out).
Proof. by vm_compute. Qed.

Lemma normal_message_formats (template a b c d : string) :
  template ∈ NORMAL_MESSAGES ->
  exists s, format_go [ ("t", a); ("service", b); ("n", c); ("uid", d) ] None template = inr s.
Proof.
  unfold NORMAL_MESSAGES. intros H.
  repeat (apply elem_of_cons in H as [->|H]); [..|by apply elem_of_nil in H];
    vm_compute; eauto.
Qed.

Lemma error_messages_known (scenario : string) :
  scenario ∈ scenarios -> is_Some (ERROR_MESSAGES_BY_SCENARIO !! scenario).
Proof.
  unfold scenarios. intros H.
  repeat (apply elem_of_cons in H as [->|H]); [..|by apply elem_of_nil in H];
    eexists; vm_compute; reflexivity.
Qed.

Lemma error_messages_unknown (scenario : string) :
  scenario ∉ scenarios -> ERROR_MESSAGES_BY_SCENARIO !! scenario = None.
Proof. intros H. by apply not_elem_of_list_to_map_1. Qed.

Lemma error_message_formats (scenario template : string) msgs (a b c d : string) :
  ERROR_MESSAGES_BY_SCENARIO !! scenario = Some msgs -> template ∈ msgs ->
  exists s, format_go [ ("host", a); ("service", b); ("n", c); ("t", d) ] None template = inr s.
Proof.
  intros Hm Ht.
  destruct (decide (scenario ∈ scenarios)) as [Hin|Hout];
    [|by rewrite error_messages_unknown in Hm].
  unfold scenarios in Hin.
  repeat (apply elem_of_cons in Hin as [->|Hin]); [..|by apply elem_of_nil in Hin];
    vm_compute in Hm; injection Hm as <-;
    repeat (apply elem_of_cons in Ht as [->|Ht]); try (by apply elem_of_nil in Ht);
    vm_compute; eauto.
Qed.

Lemma error_messages_nonempty (scenario : string) msgs :
  ERROR_MESSAGES_BY_SCENARIO !! scenario = Some msgs -> msgs <> [].
Proof.
  intros Hm.
  destruct (decide (scenario ∈ scenarios)) as [Hin|Hout];
    [|by rewrite error_messages_unknown in Hm].
  unfold scenarios in Hin.
  repeat (apply elem_of_cons in Hin as [->|Hin]); [..|by apply elem_of_nil in Hin];
    vm_compute in Hm; by injection Hm as <-.
Qed.

(** *** What each generator returns *)

Lemma generate_normal_logs_spec (base : datetime) (count : option Z) w :
  wpe (overflow_excuse (60 * minute) base) (generate_normal_logs base count)
     (fun docs _ =>
        length docs = Z.to_nat (default 200 count) /\
        Forall (log_entry base (60 * minute) SERVICES HOSTS LOG_LEVELS_NORMAL) docs) w.
Proof.
  unfold generate_normal_logs, for_range. apply wp_repeatM. clear w. intros w.
  apply wp_bind, wp_random_uniform; [lra|]. intros offset w1 Hoffset _.
  apply wp_bind, wp_random_choice; [done|]. intros service w2 Hservice _.
  apply wp_bind, wp_random_choice; [done|]. intros host w3 Hhost _.
  apply wp_bind, wp_random_choice; [done|]. intros template w4 Htemplate _.
  apply wp_bind, wp_random_randint; [lia|]. intros t w5 _ _.
  apply wp_bind, wp_random_randint; [lia|]. intros n w6 _ _.
  apply wp_bind, wp_fake_random_int; [lia|]. intros uid w7 _ _.
  apply wp_bind, wp_str_format; [by apply normal_message_formats|]. intros msg _.
  apply wp_bind, (wp_ts _ _ 60); [done|]. intros ts Hts.
  apply wp_bind, wp_random_choice; [done|]. intros level w8 Hlevel _.
  apply wp_bind, wp_trace. intros trace_id w9 _.
  apply wp_ret.
  by exists ts, service, level, msg, host, trace_id.
Qed.

Lemma generate_incident_logs_spec (base : datetime) (scenario : string)
    (count : option Z) w :
  scenario ∈ scenarios ->
  wpe (overflow_excuse (15 * minute) base) (generate_incident_logs base scenario count)
     (fun docs _ =>
        length docs = Z.to_nat (default 80 count) /\
        Forall (log_entry base (15 * minute) (take 4 SERVICES) (take 4 HOSTS)
                          LOG_LEVELS_INCIDENT) docs) w.
Proof.
  intros Hsc. destruct (error_messages_known scenario Hsc) as [msgs Hmsgs].
  unfold generate_incident_logs, for_range.
  apply wp_bind, (wp_subscript _ _ msgs); [done|].
  apply wp_repeatM. clear w. intros w.
  apply wp_bind, wp_random_uniform; [lra|]. intros offset w1 Hoffset _.
  apply wp_bind, wp_random_choice; [done|]. intros service w2 Hservice _.
  apply wp_bind, wp_random_choice; [done|]. intros host w3 Hhost _.
  apply wp_bind, wp_random_choice; [by eapply error_messages_nonempty|].
  intros template w4 Htemplate _.
  apply wp_bind, wp_random_randint; [lia|]. intros n w5 _ _.
  apply wp_bind, wp_random_randint; [lia|]. intros t w6 _ _.
  apply wp_bind, wp_str_format; [by eapply error_message_formats|]. intros msg _.
  apply wp_bind, (wp_ts _ _ 15); [done|]. intros ts Hts.
  apply wp_bind, wp_random_choice; [done|]. intros level w7 Hlevel _.
  apply wp_bind, wp_trace. intros trace_id w8 _.
  apply wp_ret.
  by exists ts, service, level, msg, host, trace_id.
Qed.

Lemma generate_incident_logs_unknown (base : datetime) (scenario : string)
    (count : option Z) w :
  scenario ∉ scenarios ->
  generate_incident_logs base scenario count w = Raise (KeyError scenario).
Proof.
  intros Hsc. unfold generate_incident_logs, bind, subscript.
  by rewrite (error_messages_unknown scenario Hsc).
Qed.

Lemma generate_normal_metrics_spec (base : datetime) (count : option Z) w :
  wpe (overflow_excuse (60 * minute) base) (generate_normal_metrics base count)
     (fun docs _ =>
        length docs = Z.to_nat (default 100 count) /\
        Forall (metric_sample base (60 * minute) HOSTS normal_ranges) docs) w.
Proof.
  unfold generate_normal_metrics, for_range. apply wp_repeatM. clear w. intros w.
  apply wp_bind, wp_random_uniform; [lra|]. intros offset w1 Hoffset _.
  apply wp_bind, wp_random_choice; [done|]. intros host w2 Hhost _.
  apply wp_bind, (wp_ts _ _ 60); [done|]. intros ts Hts.
  apply wp_bind, wp_random_uniform; [lra|]. intros cpu w3 Hcpu _.
  apply wp_bind, wp_random_uniform; [lra|]. intros mem w4 Hmem _.
  apply wp_bind, wp_random_uniform; [lra|]. intros disk_io w5 Hdisk _.
  apply wp_bind, wp_random_randint; [lia|]. intros net_in w6 Hin _.
  apply wp_bind, wp_random_randint; [lia|]. intros net_out w7 Hout _.
  apply wp_ret.
  exists ts, host, (py_round cpu 1), (py_round mem 1), (py_round disk_io 2),
    net_in, net_out.
  refine (conj eq_refl (conj Hts (conj Hhost (conj _ (conj _ (conj _ (conj Hin Hout))))))).
  - by apply (py_round_bounds _ _ _ 1 100 550).
  - by apply (py_round_bounds _ _ _ 1 300 700).
  - by apply (py_round_bounds _ _ _ 2 50 2000).
Qed.

Lemma incident_cpu_mem_spec (E : exn -> Prop) (scenario : string)
    (Q : Q * Q -> world -> Prop) w :
  (forall cpu mem w',
     ((cpu_range (incident_ranges scenario)).1 <= cpu
        <= (cpu_range (incident_ranges scenario)).2)%Q ->
     ((mem_range (incident_ranges scenario)).1 <= mem
        <= (mem_range (incident_ranges scenario)).2)%Q ->
     draws 2 w w' ->
     Q (cpu, mem) w') ->
  wpe E (if String.eqb scenario "cpu_spike" then
        cpu <- random_uniform 92 100 ;;
        mem <- random_uniform 60 80 ;;
        ret (py_round cpu 1, py_round mem 1)
      else if String.eqb scenario "oom_crash" then
        cpu <- random_uniform 50 75 ;;
        mem <- random_uniform 95 100 ;;
        ret (py_round cpu 1, py_round mem 1)
      else
        cpu <- random_uniform 80 98 ;;
        mem <- random_uniform 75 95 ;;
        ret (py_round cpu 1, py_round mem 1)) Q w.
Proof.
  intros HQ. unfold incident_ranges in HQ. cbn [cpu_range mem_range] in HQ.
  destruct (String.eqb scenario "cpu_spike"); [|destruct (String.eqb scenario "oom_crash")];
    (apply wp_bind, wp_random_uniform; [lra|]; intros cpu w1 Hcpu Hw1;
     apply wp_bind, wp_random_uniform; [lra|]; intros mem w2 Hmem Hw2;
     apply wp_ret, HQ; [| |by apply (draws_trans 1 1 w w1 w2)]).
  - by apply (py_round_bounds _ _ _ 1 920 1000).
  - by apply (py_round_bounds _ _ _ 1 600 800).
  - by apply (py_round_bounds _ _ _ 1 500 750).
  - by apply (py_round_bounds _ _ _ 1 950 1000).
  - by apply (py_round_bounds _ _ _ 1 800 980).
  - by apply (py_round_bounds _ _ _ 1 750 950).
Qed.

(** The selection of the two target hosts: two distinct hosts of the first
    four, for two draws. *)
Lemma random_sample_hosts w :
  exists h1 h2 w0,
    random_sample (take 4 HOSTS) 2 w = Ok [h1; h2] w0 /\
    h1 <> h2 /\ h1 ∈ take 4 HOSTS /\ h2 ∈ take 4 HOSTS /\ draws 2 w w0.
Proof.
  assert (wp (random_sample (take 4 HOSTS) 2)
             (fun l w0 => exists h1 h2, l = [h1; h2] /\ h1 <> h2 /\
                                        h1 ∈ take 4 HOSTS /\ h2 ∈ take 4 HOSTS /\
                                        draws 2 w w0) w) as H.
  { apply wp_random_sample_2_of_4; [done | |].
    - by apply (bool_decide_unpack (NoDup (take 4 HOSTS))).
    - intros x y w' ? ? ? ?. by exists x, y. }
  destruct (wp_run _ _ _ H) as (l & w0 & Hrun & h1 & h2 & -> & ?).
  by eauto 10.
Qed.

(** The loop of [generate_incident_metrics] once the targets are selected:
    as many records as requested, each made from seven draws, with the
    host that its second draw chose. *)
Lemma generate_incident_metrics_targets (base : datetime) (scenario : string)
    (count : option Z) w :
  exists h1 h2 w0,
    random_sample (take 4 HOSTS) 2 w = Ok [h1; h2] w0 /\
    h1 <> h2 /\ h1 ∈ take 4 HOSTS /\ h2 ∈ take 4 HOSTS /\ draws 2 w w0 /\
    wpe (overflow_excuse (15 * minute) base)
        (generate_incident_metrics base scenario count)
        (fun docs w' =>
           draws (7 * Z.to_nat (default 50 count)) w0 w' /\
           length docs = Z.to_nat (default 50 count) /\
           forall i d, docs !! i = Some d ->
             metric_sample base (15 * minute) [h1; h2] (incident_ranges scenario) d /\
             d !! "host" = Some (VStr (chosen_target w h1 h2 i))) w.
Proof.
  destruct (random_sample_hosts w) as (h1 & h2 & w0 & Hsample & Hne & Hh1 & Hh2 & Hw0).
  exists h1, h2, w0. split_and!; try done.
  unfold generate_incident_metrics, for_range.
  apply wp_bind. unfold wpe at 1. rewrite Hsample.
  eapply wp_mono.
  { apply (wp_repeatM_indexed 7 _
             (fun src pos d =>
                metric_sample base (15 * minute) [h1; h2] (incident_ranges scenario) d /\
                d !! "host" = Some (VStr (target_at src pos h1 h2)))).
    clear w w0 Hsample Hw0. intros w.
    apply wp_bind, wp_random_uniform; [lra|]. intros offset w1 Hoffset Hw1.
    apply wp_bind, wp_random_choice_drawn. intros w2 Hw2.
    set (host := nth _ [h1; h2] h1).
    assert (host = target_at (random_src w) (random_pos w) h1 h2) as Hhost.
    { unfold host, target_at. destruct Hw1 as (_ & _ & -> & ->). done. }
    assert (host ∈ [h1; h2]) as Hin.
    { unfold host. apply list_elem_of_In, nth_In.
      pose proof (Z.mod_pos_bound (Z.of_N (random_src w1 (random_pos w1)))
                    (Z.of_nat (length [h1; h2])) ltac:(simpl; lia)).
      lia. }
    clearbody host.
    apply wp_bind, incident_cpu_mem_spec. intros cpu mem w3 Hcpu Hmem Hw3.
    apply wp_bind, (wp_ts _ _ 15); [done|]. intros ts Hts.
    apply wp_bind, wp_random_uniform; [lra|]. intros disk_io w4 Hdisk Hw4.
    apply wp_bind, wp_random_randint; [lia|]. intros net_in w5 Hnin Hw5.
    apply wp_bind, wp_random_randint; [lia|]. intros net_out w6 Hnout Hw6.
    apply wp_ret. split_and!.
    - apply (draws_trans 6 1 w w5 w6); [|done].
      apply (draws_trans 5 1 w w4 w5); [|done].
      apply (draws_trans 4 1 w w3 w4); [|done].
      apply (draws_trans 2 2 w w2 w3); [|done].
      by apply (draws_trans 1 1 w w1 w2).
    - exists ts, host, cpu, mem, (py_round disk_io 2), net_in, net_out.
      refine (conj eq_refl (conj Hts (conj Hin (conj Hcpu (conj Hmem
               (conj _ (conj Hnin Hnout))))))).
      by apply (py_round_bounds _ _ _ 2 5000 20000).
    - rewrite <- Hhost.
      by destruct (metric_doc_lookup (VDate ts) host cpu mem (py_round disk_io 2)
                     net_in net_out) as (_ & _ & ? & _). }
  intros docs w' (Hw' & Hlen & Hall). split_and!; [done..|].
  intros i d Hd. destruct (Hall i d Hd) as [Hsample' Hhost]. split; [done|].
  rewrite Hhost. unfold chosen_target.
  by destruct Hw0 as (_ & _ & -> & ->).
Qed.

Lemma generate_incident_metrics_spec (base : datetime) (scenario : string)
    (count : option Z) w :
  wpe (overflow_excuse (15 * minute) base)
     (generate_incident_metrics base scenario count)
     (fun docs _ =>
        length docs = Z.to_nat (default 50 count) /\
        exists h1 h2,
          (exists w0, random_sample (take 4 HOSTS) 2 w = Ok [h1; h2] w0) /\
          h1 <> h2 /\ h1 ∈ take 4 HOSTS /\ h2 ∈ take 4 HOSTS /\
          Forall (metric_sample base (15 * minute) [h1; h2]
                                (incident_ranges scenario)) docs) w.
Proof.
  destruct (generate_incident_metrics_targets base scenario count w)
    as (h1 & h2 & w0 & Hsample & Hne & Hh1 & Hh2 & _ & Hgen).
  eapply wp_mono; [exact Hgen|].
  intros docs w' (_ & Hlen & Hall). split; [done|].
  exists h1, h2. split_and!; eauto.
  apply Forall_lookup. intros i d Hd. by destruct (Hall i d Hd).
Qed.

(** *** From the shape of a document to its fields *)

Lemma log_entry_fields base window services hosts levels (d : dict) :
  log_entry base window services hosts levels d ->
  str_field_in "_index" [ "soc-logs" ] d /\
  timestamp_within (base - window) base d /\
  str_field_in "service" services d /\
  str_field_in "host" hosts d /\
  str_field_in "level" levels d.
Proof.
  intros (t & service & level & msg & host & trace_id & -> & Ht & Hs & Hh & Hl).
  destruct (log_doc_lookup (VDate t) service level msg host trace_id)
    as (Hi & Hts & Hse & Hle & Hho).
  unfold str_field_in, timestamp_within.
  split_and!; eauto using list_elem_of_here.
Qed.

Lemma metric_sample_fields base window hosts r (d : dict) :
  metric_sample base window hosts r d ->
  str_field_in "_index" [ "soc-metrics" ] d /\
  timestamp_within (base - window) base d /\
  str_field_in "host" hosts d /\
  d !! "service" = None /\
  float_field_within "cpu_pct" (cpu_range r).1 (cpu_range r).2 d /\
  float_field_within "mem_pct" (mem_range r).1 (mem_range r).2 d /\
  float_field_within "disk_io" (disk_range r).1 (disk_range r).2 d /\
  int_field_within "net_in" (net_in_range r).1 (net_in_range r).2 d /\
  int_field_within "net_out" (net_out_range r).1 (net_out_range r).2 d.
Proof.
  intros (t & host & cpu & mem & disk_io & net_in & net_out & -> & Ht & Hh
          & Hcpu & Hmem & Hdisk & Hin & Hout).
  destruct (metric_doc_lookup (VDate t) host cpu mem disk_io net_in net_out)
    as (Hi & Hts & Hho & Hse & Hc & Hm & Hd & Hni & Hno).
  unfold str_field_in, timestamp_within, float_field_within, int_field_within.
  split_and!; eauto using list_elem_of_here.
Qed.

Lemma returns_all_intro (m : M (list dict)) w (R : list dict -> Prop)
    (P : dict -> Prop) :
  wp m (fun docs _ => R docs) w ->
  (forall docs, R docs -> Forall P docs) ->
  returns_all (m w) P.
Proof.
  intros Hwp HR. destruct (wp_run _ _ _ Hwp)
    as (docs & w' & Hrun & Hdocs).
  exists docs, w'. eauto.
Qed.

Lemma returns_anchored_intro (window : timedelta) (base : datetime)
    (m : M (list dict)) w (Q : list dict -> world -> Prop) (R : list dict -> Prop) :
  wpe (overflow_excuse window base) m Q w ->
  (forall docs w', Q docs w' -> R docs) ->
  returns_anchored window base (m w) R.
Proof. unfold wpe, returns_anchored. destruct (m w); naive_solver. Qed.

(** With an anchor late enough for its look-back, a generator returns. *)
Lemma wp_anchored {A} (window : timedelta) (base : datetime) (m : M A)
    (Q : A -> world -> Prop) w :
  anchor_in_range window base ->
  wpe (overflow_excuse window base) m Q w -> wp m Q w.
Proof. intros Hin. apply wp_excuse. intros e. by apply in_range_never. Qed.

Lemma returns_anchored_in_range (window : timedelta) (base : datetime)
    (r : result (list dict)) (R : list dict -> Prop) :
  anchor_in_range window base -> returns_anchored window base r R ->
  exists docs w', r = Ok docs w' /\ R docs.
Proof.
  intros Hin. unfold returns_anchored. destruct r as [docs w'|e]; [by eauto|].
  by intros [_ Hout].
Qed.

Lemma scenario_in_known (scenario : string) :
  bool_decide (scenario ∈ scenarios) = true -> scenario ∈ scenarios.
Proof. apply bool_decide_eq_true_1. Qed.

(** An incident-metrics run with a scenario that is neither [cpu_spike] nor
    [oom_crash] is the [cascading_failure] run. *)
Lemma incident_metrics_else_branch (base : datetime) (scenario : string)
    (count : option Z) :
  scenario <> "cpu_spike" -> scenario <> "oom_crash" ->
  generate_incident_metrics base scenario count
  = generate_incident_metrics base "cascading_failure" count.
Proof.
  intros H1 H2. unfold generate_incident_metrics.
  apply String.eqb_neq in H1, H2. by rewrite H1, H2.
Qed.

Lemma hosts_of_targets (h1 h2 : string) (d : dict) :
  h1 ∈ take 4 HOSTS -> h2 ∈ take 4 HOSTS ->
  str_field_in "host" [h1; h2] d -> str_field_in "host" (take 4 HOSTS) d.
Proof.
  intros Hh1 Hh2 (h & Hh & Hin). exists h. split; [done|].
  apply elem_of_cons in Hin as [->|Hin]; [done|].
  by apply list_elem_of_singleton in Hin as ->.
Qed.

(** Documents whose host is one of two carry at most two distinct hosts. *)
Lemma two_hosts_size (h1 h2 : string) (docs : list dict) :
  Forall (str_field_in "host" [h1; h2]) docs ->
  (size (list_to_set (str_fields "host" docs) : gset string) <= 2)%nat.
Proof.
  intros Hhosts.
  assert ((list_to_set (str_fields "host" docs) : gset string) ⊆ {[h1; h2]}) as Hsub.
  { intros h Hh. apply elem_of_list_to_set in Hh.
    unfold str_fields in Hh. apply list_elem_of_omap in Hh as (d & Hd & Hdh).
    rewrite Forall_forall in Hhosts. destruct (Hhosts d Hd) as (s & Hs & Hin).
    rewrite Hs in Hdh. injection Hdh as <-.
    apply elem_of_union. rewrite !elem_of_singleton.
    apply elem_of_cons in Hin as [->|Hin]; [by left|].
    apply list_elem_of_singleton in Hin as ->. by right. }
  apply subseteq_size in Hsub. etrans; [exact Hsub|].
  destruct (decide (h1 = h2)) as [->|Hne].
  - rewrite union_idemp_L, size_singleton. lia.
  - rewrite size_union, !size_singleton; [done|].
    by apply disjoint_singleton_l, not_elem_of_singleton.
Qed.

(** ** The claims *)

(** C1 (as the code has it, at the input where it departs from the claim):
    the scenario key [disk_full] is outside the three scenarios;
    [generate_incident_logs] raises [KeyError] on it, but
    [generate_incident_metrics] does not: its run is the run of the
    [cascading_failure] scenario, which returns the documents requested
    (the only exception it can raise is the [OverflowError] of an anchor
    within 15 minutes of [datetime_min]). *)
Theorem C1_unknown_scenario_metrics_fall_back (base : datetime) (count : option Z) w :
  ("disk_full" ∉ scenarios) /\
  generate_incident_logs base "disk_full" count w = Raise (KeyError "disk_full") /\
  generate_incident_metrics base "disk_full" count w
  = generate_incident_metrics base "cascading_failure" count w /\
  returns_anchored (15 * minute) base
    (generate_incident_metrics base "disk_full" count w)
    (fun docs => length docs = Z.to_nat (default 50 count)).
Proof.
  assert ("disk_full" ∉ scenarios) as Hout
    by (by apply (bool_decide_unpack ("disk_full" ∉ scenarios))).
  split_and!; [done| by apply generate_incident_logs_unknown | |].
  - by rewrite incident_metrics_else_branch.
  - eapply returns_anchored_intro; [apply generate_incident_metrics_spec|].
    by intros docs _ [? _].
Qed.

(** C2: every document of [generate_normal_logs] and
    [generate_normal_metrics] is stamped within the 60 minutes before the
    anchor, every document of [generate_incident_logs] (for a scenario it
    accepts) and of [generate_incident_metrics] within the 15 minutes before
    the anchor.  Each generator returns its documents unless the anchor is
    less than its look-back after [datetime_min], where it may raise
    [OverflowError] and return nothing. *)
Theorem C2_timestamps_within_window (base : datetime) (scenario : string)
    (count : option Z) w :
  returns_anchored (60 * minute) base (generate_normal_logs base count w)
    (Forall (timestamp_within (base - 60 * minute) base)) /\
  returns_anchored (60 * minute) base (generate_normal_metrics base count w)
    (Forall (timestamp_within (base - 60 * minute) base)) /\
  (scenario ∈ scenarios ->
   returns_anchored (15 * minute) base (generate_incident_logs base scenario count w)
     (Forall (timestamp_within (base - 15 * minute) base))) /\
  returns_anchored (15 * minute) base (generate_incident_metrics base scenario count w)
    (Forall (timestamp_within (base - 15 * minute) base)).
Proof.
  split_and!; [| | intros Hsc |].
  - eapply returns_anchored_intro; [apply generate_normal_logs_spec|].
    intros docs _ [_ H]. eapply Forall_impl; [exact H|].
    intros d Hd. by apply log_entry_fields in Hd as (_ & ? & _).
  - eapply returns_anchored_intro; [apply generate_normal_metrics_spec|].
    intros docs _ [_ H]. eapply Forall_impl; [exact H|].
    intros d Hd. by apply metric_sample_fields in Hd as (_ & ? & _).
  - eapply returns_anchored_intro; [by apply generate_incident_logs_spec|].
    intros docs _ [_ H]. eapply Forall_impl; [exact H|].
    intros d Hd. by apply log_entry_fields in Hd as (_ & ? & _).
  - eapply returns_anchored_intro; [apply generate_incident_metrics_spec|].
    intros docs _ (_ & h1 & h2 & _ & _ & _ & _ & H). eapply Forall_impl; [exact H|].
    intros d Hd. by apply metric_sample_fields in Hd as (_ & ? & _).
Qed.

Lemma C2_timestamps_within_window_witness :
  returns_anchored (15 * minute) 1700000000000000
    (generate_incident_logs 1700000000000000 "oom_crash" (Some 5) sample_world)
    (Forall (timestamp_within (1700000000000000 - 15 * minute) 1700000000000000)).
Proof.
  refine (proj1 (proj2 (proj2 (C2_timestamps_within_window
                                 1700000000000000 "oom_crash" (Some 5) sample_world))) _).
  apply scenario_in_known. reflexivity.
Defined.



(** C4 (as stated, refuted): anchored at [datetime_min], the earliest
    [datetime], [generate_normal_logs] asked for one document returns none:
    the draw [0] gives the offset of -60 minutes, and [_ts] raises
    [OverflowError] on the instant 60 minutes before [datetime_min]. *)
Lemma C4_early_anchor_raises_overflow_error :
  generate_normal_logs datetime_min (Some 1) (constant_world 0) = Raise OverflowError.
Proof. by vm_compute. Qed.

(** C4 (amended): for a requested count [n >= 0] and a scenario of the
    three, each normal generator anchored at least 60 minutes after
    [datetime_min], and each incident generator anchored at least 15
    minutes after it, returns exactly [n] documents; without a count they
    return 200 normal logs, 100 normal metrics, 80 incident logs and 50
    incident metrics.  On an earlier anchor a generator returns that many
    documents or raises [OverflowError]. *)
Theorem C4_document_count_is_requested_count (base : datetime)
    (scenario : string) (n : Z) w :
  0 <= n -> scenario ∈ scenarios ->
  (anchor_in_range (60 * minute) base ->
   (exists docs w', generate_normal_logs base (Some n) w = Ok docs w' /\
                    Z.of_nat (length docs) = n) /\
   (exists docs w', generate_normal_metrics base (Some n) w = Ok docs w' /\
                    Z.of_nat (length docs) = n) /\
   (exists docs w', generate_normal_logs base None w = Ok docs w' /\
                    length docs = 200%nat) /\
   (exists docs w', generate_normal_metrics base None w = Ok docs w' /\
                    length docs = 100%nat)) /\
  (anchor_in_range (15 * minute) base ->
   (exists docs w', generate_incident_logs base scenario (Some n) w = Ok docs w' /\
                    Z.of_nat (length docs) = n) /\
   (exists docs w', generate_incident_metrics base scenario (Some n) w = Ok docs w' /\
                    Z.of_nat (length docs) = n) /\
   (exists docs w', generate_incident_logs base scenario None w = Ok docs w' /\
                    length docs = 80%nat) /\
   (exists docs w', generate_incident_metrics base scenario None w = Ok docs w' /\
                    length docs = 50%nat)) /\
  returns_anchored (60 * minute) base (generate_normal_logs base (Some n) w)
    (fun docs => Z.of_nat (length docs) = n) /\
  returns_anchored (60 * minute) base (generate_normal_metrics base (Some n) w)
    (fun docs => Z.of_nat (length docs) = n) /\
  returns_anchored (15 * minute) base (generate_incident_logs base scenario (Some n) w)
    (fun docs => Z.of_nat (length docs) = n) /\
  returns_anchored (15 * minute) base (generate_incident_metrics base scenario (Some n) w)
    (fun docs => Z.of_nat (length docs) = n).
Proof.
  intros Hn Hsc.
  assert (forall docs : list dict,
            length docs = Z.to_nat (default 0 (Some n)) ->
            Z.of_nat (length docs) = n) as Hcount.
  { intros docs ->. cbn [default from_option id]. lia. }
  assert (returns_anchored (60 * minute) base (generate_normal_logs base (Some n) w)
            (fun docs => Z.of_nat (length docs) = n)) as H1.
  { eapply returns_anchored_intro; [apply generate_normal_logs_spec|].
    intros docs _ [Hlen _]. by apply Hcount. }
  assert (returns_anchored (60 * minute) base (generate_normal_metrics base (Some n) w)
            (fun docs => Z.of_nat (length docs) = n)) as H2.
  { eapply returns_anchored_intro; [apply generate_normal_metrics_spec|].
    intros docs _ [Hlen _]. by apply Hcount. }
  assert (returns_anchored (15 * minute) base
            (generate_incident_logs base scenario (Some n) w)
            (fun docs => Z.of_nat (length docs) = n)) as H3.
  { eapply returns_anchored_intro; [by apply generate_incident_logs_spec|].
    intros docs _ [Hlen _]. by apply Hcount. }
  assert (returns_anchored (15 * minute) base
            (generate_incident_metrics base scenario (Some n) w)
            (fun docs => Z.of_nat (length docs) = n)) as H4.
  { eapply returns_anchored_intro; [apply generate_incident_metrics_spec|].
    intros docs _ [Hlen _]. by apply Hcount. }
  assert (returns_anchored (60 * minute) base (generate_normal_logs base None w)
            (fun docs => length docs = 200%nat)) as H5.
  { eapply returns_anchored_intro; [apply generate_normal_logs_spec|].
    by intros docs _ [Hlen _]. }
  assert (returns_anchored (60 * minute) base (generate_normal_metrics base None w)
            (fun docs => length docs = 100%nat)) as H6.
  { eapply returns_anchored_intro; [apply generate_normal_metrics_spec|].
    by intros docs _ [Hlen _]. }
  assert (returns_anchored (15 * minute) base
            (generate_incident_logs base scenario None w)
            (fun docs => length docs = 80%nat)) as H7.
  { eapply returns_anchored_intro; [by apply generate_incident_logs_spec|].
    by intros docs _ [Hlen _]. }
  assert (returns_anchored (15 * minute) base
            (generate_incident_metrics base scenario None w)
            (fun docs => length docs = 50%nat)) as H8.
  { eapply returns_anchored_intro; [apply generate_incident_metrics_spec|].
    by intros docs _ [Hlen _]. }
  split_and!; [intros Hin | intros Hin | done..].
  - split_and!.
    + exact (returns_anchored_in_range _ _ _ _ Hin H1).
    + exact (returns_anchored_in_range _ _ _ _ Hin H2).
    + exact (returns_anchored_in_range _ _ _ _ Hin H5).
    + exact (returns_anchored_in_range _ _ _ _ Hin H6).
  - split_and!.
    + exact (returns_anchored_in_range _ _ _ _ Hin H3).
    + exact (returns_anchored_in_range _ _ _ _ Hin H4).
    + exact (returns_anchored_in_range _ _ _ _ Hin H7).
    + exact (returns_anchored_in_range _ _ _ _ Hin H8).
Qed.

Lemma anchor_in_range_known (window : timedelta) (base : datetime) :
  bool_decide (datetime_min + window <= base <= datetime_max) = true ->
  anchor_in_range window base.
Proof. apply bool_decide_eq_true_1. Qed.

Lemma C4_document_count_is_requested_count_witness :
  exists docs w',
    generate_incident_logs 1700000000000000 "cpu_spike" (Some 7) sample_world
    = Ok docs w' /\ Z.of_nat (length docs) = 7.
Proof.
  refine (proj1 (proj1 (proj2 (C4_document_count_is_requested_count
                                 1700000000000000 "cpu_spike" 7 sample_world _ _)) _)).
  - lia.
  - apply scenario_in_known. reflexivity.
  - apply anchor_in_range_known. reflexivity.
Defined.

(** C8: whatever the generator, the service of a log record is one of the
    8 configured services and the host of a log or metric record is one of
    the 8 configured hosts; a metric record has no service field.  Each
    generator returns its documents unless the anchor is less than its
    look-back after [datetime_min]. *)
Theorem C8_services_and_hosts_from_closed_sets (base : datetime)
    (scenario : string) (count : option Z) w :
  length SERVICES = 8%nat /\ NoDup SERVICES /\
  length HOSTS = 8%nat /\ NoDup HOSTS /\
  returns_anchored (60 * minute) base (generate_normal_logs base count w)
    (Forall (fun d => str_field_in "service" SERVICES d /\
                      str_field_in "host" HOSTS d)) /\
  returns_anchored (60 * minute) base (generate_normal_metrics base count w)
    (Forall (fun d => d !! "service" = None /\ str_field_in "host" HOSTS d)) /\
  (scenario ∈ scenarios ->
   returns_anchored (15 * minute) base (generate_incident_logs base scenario count w)
     (Forall (fun d => str_field_in "service" SERVICES d /\
                       str_field_in "host" HOSTS d))) /\
  returns_anchored (15 * minute) base (generate_incident_metrics base scenario count w)
    (Forall (fun d => d !! "service" = None /\ str_field_in "host" HOSTS d)).
Proof.
  assert (forall key d, str_field_in key (take 4 SERVICES) d ->
                        str_field_in key SERVICES d) as Hservices.
  { intros key d (s & ? & Hs). exists s. split; [done|].
    by eapply (subseteq_take 4). }
  assert (forall key d, str_field_in key (take 4 HOSTS) d ->
                        str_field_in key HOSTS d) as Hhosts.
  { intros key d (s & ? & Hs). exists s. split; [done|].
    by eapply (subseteq_take 4). }
  split_and!; [done | by apply (bool_decide_unpack (NoDup SERVICES))
              | done | by apply (bool_decide_unpack (NoDup HOSTS)) | | | intros Hsc |].
  - eapply returns_anchored_intro; [apply generate_normal_logs_spec|].
    intros docs _ [_ H]. eapply Forall_impl; [exact H|].
    intros d Hd. by apply log_entry_fields in Hd as (_ & _ & ? & ? & _).
  - eapply returns_anchored_intro; [apply generate_normal_metrics_spec|].
    intros docs _ [_ H]. eapply Forall_impl; [exact H|].
    intros d Hd. by apply metric_sample_fields in Hd as (_ & _ & ? & ? & _).
  - eapply returns_anchored_intro; [by apply generate_incident_logs_spec|].
    intros docs _ [_ H]. eapply Forall_impl; [exact H|].
    intros d Hd. apply log_entry_fields in Hd as (_ & _ & ? & ? & _). eauto.
  - eapply returns_anchored_intro; [apply generate_incident_metrics_spec|].
    intros docs _ (_ & h1 & h2 & _ & _ & Hh1 & Hh2 & H). eapply Forall_impl; [exact H|].
    intros d Hd. apply metric_sample_fields in Hd as (_ & _ & Hhost & ? & _).
    split; [done|]. by apply Hhosts, (hosts_of_targets h1 h2).
Qed.

Lemma C8_services_and_hosts_from_closed_sets_witness :
  returns_anchored (15 * minute) 1700000000000000
    (generate_incident_logs 1700000000000000 "cpu_spike" (Some 4) sample_world)
    (Forall (fun d => str_field_in "service" SERVICES d /\
                      str_field_in "host" HOSTS d)).
Proof.
  refine (proj1 (proj2 (proj2 (proj2 (proj2 (proj2 (proj2
            (C8_services_and_hosts_from_closed_sets
               1700000000000000 "cpu_spike" (Some 4) sample_world))))))) _).
  apply scenario_in_known. reflexivity.
Defined.

(** C10: the first thing a call of [generate_incident_metrics] does is to
    sample two distinct hosts [h1], [h2] among the first four, with the
    first two draws of the call (asked for no record, the call returns in
    the state the sampling leaves).  The call then returns as many records
    as requested; the host of the [i]-th record is the one of [h1], [h2]
    that its own draw chooses, so every record has its host among the two
    and the batch holds at most two distinct hosts.  (The call returns
    unless the anchor is less than 15 minutes after [datetime_min].) *)
Theorem C10_incident_metrics_two_target_hosts (base : datetime)
    (scenario : string) (count : option Z) w :
  exists h1 h2 w0,
    random_sample (take 4 HOSTS) 2 w = Ok [h1; h2] w0 /\
    h1 <> h2 /\ h1 ∈ take 4 HOSTS /\ h2 ∈ take 4 HOSTS /\
    random_pos w0 = (random_pos w + 2)%nat /\
    generate_incident_metrics base scenario (Some 0) w = Ok [] w0 /\
    returns_anchored (15 * minute) base
      (generate_incident_metrics base scenario count w)
      (fun docs =>
         length docs = Z.to_nat (default 50 count) /\
         Forall2 (fun i d => d !! "host" = Some (VStr (chosen_target w h1 h2 i)))
                 (seq 0 (length docs)) docs /\
         Forall (str_field_in "host" [h1; h2]) docs /\
         (size (list_to_set (str_fields "host" docs) : gset string) <= 2)%nat).
Proof.
  destruct (generate_incident_metrics_targets base scenario count w)
    as (h1 & h2 & w0 & Hsample & Hne & Hh1 & Hh2 & Hw0 & Hgen).
  exists h1, h2, w0. split_and!; try done.
  - by destruct Hw0 as (_ & _ & _ & ?).
  - unfold generate_incident_metrics, bind. by rewrite Hsample.
  - eapply returns_anchored_intro; [exact Hgen|].
    intros docs _ (_ & Hlen & Hall).
    assert (Forall (str_field_in "host" [h1; h2]) docs) as Hhosts.
    { apply Forall_lookup. intros i d Hd. destruct (Hall i d Hd) as [Hd' _].
      by apply metric_sample_fields in Hd' as (_ & _ & ? & _). }
    split_and!; [done | | done |].
    + apply Forall2_same_length_lookup_2; [by rewrite length_seq|].
      intros i n d Hn Hd. apply lookup_seq in Hn as [-> _].
      by destruct (Hall i d Hd).
    + by apply (two_hosts_size h1 h2).
Qed.

(** *** The incident knowledge base *)

Lemma catalog_keys :
  Forall (fun inc : dict =>
            inc !! "created_at" = None /\ inc !! "_index" = None /\
            Forall (fun key => is_Some (inc !! key)) content_fields)
         HISTORICAL_INCIDENTS.
Proof.
  unfold HISTORICAL_INCIDENTS.
  repeat apply Forall_cons_2; [..|apply Forall_nil_2];
    (split_and!;
     [ by vm_compute | by vm_compute
     | unfold content_fields; repeat apply Forall_cons_2; [..|apply Forall_nil_2];
       eexists; vm_compute; reflexivity ]).
Qed.

Lemma incident_doc_insert (inc : dict) (now : datetime) (d : dict) :
  inc !! "_index" = None ->
  incident_doc inc now d ->
  exists days,
    7 <= days <= 180 /\
    d = <["created_at" := VDate (now - days * day)]>
          (<["_index" := VStr "soc-incidents"]> inc).
Proof.
  intros Hidx (days & Hdays & ->). exists days. split; [done|].
  unfold dict_spread, dict_literal, timedelta_days, day. cbn [foldl fst snd].
  by rewrite insert_empty, <- insert_union_singleton_r.
Qed.

Lemma for_each_incident_spec (catalog : list dict) w :
  wp (for_each catalog (fun inc =>
        now <- datetime_now ;;
        days <- random_randint 7 180 ;;
        created <- datetime_add now (- timedelta_days days) ;;
        ret (<["created_at" := VDate created]>
               (dict_spread (dict_literal [ ("_index", VStr "soc-incidents") ]) inc))))
     (fun docs w' =>
        clock_src w' = clock_src w /\
        clock_pos w' = (clock_pos w + length catalog)%nat /\
        length docs = length catalog /\
        forall i inc d, catalog !! i = Some inc -> docs !! i = Some d ->
                        incident_doc inc (clock_reading w i) d) w.
Proof.
  revert w. induction catalog as [|inc catalog IH]; intros w; cbn [for_each].
  - apply wp_ret. split_and!; [done | cbn; lia | done | done].
  - apply wp_bind, wp_bind, wp_datetime_now. intros w1 Hsrc1 Hpos1.
    apply wp_bind, wp_random_randint; [lia|]. intros days w2 Hdays (Hsrc2 & Hpos2 & _).
    apply wp_bind, wp_datetime_add.
    { pose proof (clock_in_range w (clock_pos w)) as Hnow.
      unfold timedelta_days, unix_epoch, datetime_min, datetime_max in *. lia. }
    apply wp_ret, wp_bind. eapply wp_mono; [apply IH|].
    intros docs w3 (Hsrc3 & Hpos3 & Hlen & Hall). apply wp_ret.
    split_and!.
    + congruence.
    + rewrite Hpos3, Hpos2, Hpos1. cbn [length]. lia.
    + cbn [length]. by rewrite Hlen.
    + intros [|i] inc' d Hinc Hd; cbn in Hinc, Hd.
      * injection Hinc as <-. injection Hd as <-.
        exists days. split; [done|]. unfold clock_reading.
        by rewrite Nat.add_0_r, Z.add_opp_r.
      * specialize (Hall i inc' d Hinc Hd).
        replace (clock_reading w (S i)) with (clock_reading w2 i); [done|].
        unfold clock_reading. rewrite Hsrc2, Hsrc1, Hpos2, Hpos1. f_equal. lia.
Qed.

Lemma generate_incidents_spec w :
  exists docs w',
    generate_incidents w = Ok docs w' /\
    length docs = length HISTORICAL_INCIDENTS /\
    forall i inc d, HISTORICAL_INCIDENTS !! i = Some inc -> docs !! i = Some d ->
      exists days,
        7 <= days <= 180 /\
        d = <["created_at" := VDate (clock_reading w i - days * day)]>
              (<["_index" := VStr "soc-incidents"]> inc).
Proof.
  pose proof (for_each_incident_spec HISTORICAL_INCIDENTS w) as H.
  destruct (wp_run _ _ _ H)
    as (docs & w' & Hrun & _ & _ & Hlen & Hall).
  exists docs, w'. split_and!; [done..|].
  intros i inc d Hinc Hd. apply incident_doc_insert; [|by eapply Hall].
  pose proof catalog_keys as Hkeys. rewrite Forall_lookup in Hkeys.
  by destruct (Hkeys i inc Hinc) as (_ & ? & _).
Qed.

Lemma generate_incidents_index w :
  wp generate_incidents
     (fun docs _ =>
        length docs = length HISTORICAL_INCIDENTS /\
        Forall (str_field_in "_index" [ "soc-incidents" ]) docs) w.
Proof.
  destruct (generate_incidents_spec w) as (docs & w' & Hrun & Hlen & Hall).
  apply (wp_intro _ _ _ docs w' Hrun). split; [done|].
  apply Forall_lookup. intros i d Hd.
  destruct (lookup_lt_is_Some_2 HISTORICAL_INCIDENTS i) as [inc Hinc].
  { rewrite <- Hlen. by eapply lookup_lt_Some. }
  destruct (Hall i inc d Hinc Hd) as (days & _ & ->).
  exists "soc-incidents". split; [|by apply list_elem_of_here].
  rewrite lookup_insert_ne by done. by rewrite lookup_insert_eq.
Qed.

(** C5 (as stated, refuted): on a clock that returns the same reading twice,
    two incident documents that draw the same day offset get the same
    [created_at]; here the first two documents of one call, both created 38
    days before the reading 1700000000000000. *)
Lemma C5_created_at_can_coincide :
  take 2 <$> fields_of "created_at" (generate_incidents coarse_clock_world)
  = Some [ Some (VDate 1696716800000000); Some (VDate 1696716800000000) ].
Proof. by vm_compute. Qed.

(** C5 (amended): [generate_incidents] returns as many documents as the
    catalog has entries, 8; the [created_at] of the [i]-th document is a
    whole number of days, 7 to 180, before the [i]-th clock reading; and the
    timestamps are pairwise distinct when the eight readings are strictly
    increasing and less than a day apart. *)
Theorem C5_incidents_catalog_size_and_past_timestamps w :
  exists docs w',
    generate_incidents w = Ok docs w' /\
    length docs = length HISTORICAL_INCIDENTS /\
    length docs = 8%nat /\
    Forall2 (fun i d => created_days_before (clock_reading w i) d) (seq 0 8) docs /\
    ((forall i j, (i < j < 8)%nat ->
        clock_reading w i < clock_reading w j < clock_reading w i + day) ->
     NoDup (created_at <$> docs)).
Proof.
  destruct (generate_incidents_spec w) as (docs & w' & Hrun & Hlen & Hall).
  assert (length docs = 8%nat) as Hlen8 by done.
  assert (forall i d, docs !! i = Some d ->
            (i < 8)%nat /\ created_days_before (clock_reading w i) d) as Hdocs.
  { intros i d Hd.
    assert (i < 8)%nat as Hi by (rewrite <- Hlen8; by eapply lookup_lt_Some).
    split; [done|].
    destruct (lookup_lt_is_Some_2 HISTORICAL_INCIDENTS i) as [inc Hinc]; [done|].
    destruct (Hall i inc d Hinc Hd) as (days & Hdays & ->).
    exists days. split; [done|]. apply lookup_insert_eq. }
  exists docs, w'. split_and!; [done..| |].
  - apply Forall2_same_length_lookup_2; [by rewrite length_seq|].
    intros i n d Hn Hd. apply lookup_seq in Hn as [-> _].
    by apply Hdocs.
  - intros Hclock. apply NoDup_alt. intros i j x Hi Hj.
    rewrite list_lookup_fmap in Hi, Hj.
    destruct (docs !! i) as [di|] eqn:Hdi; [|done].
    destruct (docs !! j) as [dj|] eqn:Hdj; [|done].
    cbn in Hi, Hj. injection Hi as Hxi. injection Hj as Hxj.
    destruct (Hdocs i di Hdi) as (Hi8 & ni & Hni & Hci).
    destruct (Hdocs j dj Hdj) as (Hj8 & nj & Hnj & Hcj).
    assert (clock_reading w i - ni * day = clock_reading w j - nj * day) as Heq
      by congruence.
    unfold day in *.
    destruct (Nat.lt_total i j) as [Hlt|[Heq'|Hgt]]; [|done|].
    + specialize (Hclock i j ltac:(lia)). lia.
    + specialize (Hclock j i ltac:(lia)). lia.
Qed.

Lemma sample_world_clock (i : nat) :
  clock_reading sample_world i
  = Z.min (Z.of_N (1700000000000000 + 250 * N.of_nat (0 + i))) 253402300799999999.
Proof. reflexivity. Qed.

Lemma sample_world_clock_increasing (i j : nat) :
  (i < j < 8)%nat ->
  clock_reading sample_world i < clock_reading sample_world j
  < clock_reading sample_world i + day.
Proof. intros Hij. rewrite !sample_world_clock. unfold day. lia. Qed.

Lemma C5_incidents_catalog_size_and_past_timestamps_witness :
  exists docs w',
    generate_incidents sample_world = Ok docs w' /\ NoDup (created_at <$> docs).
Proof.
  destruct (C5_incidents_catalog_size_and_past_timestamps sample_world)
    as (docs & w' & Hrun & _ & _ & _ & Hdistinct).
  exists docs, w'. split; [exact Hrun|].
  apply Hdistinct, sample_world_clock_increasing.
Defined.

Lemma content_field_not_added (key : string) :
  key ∈ content_fields -> key <> "created_at" /\ key <> "_index".
Proof.
  intros Hkey.
  pose proof (bool_decide_unpack ("created_at" ∉ content_fields) I) as H1.
  pose proof (bool_decide_unpack ("_index" ∉ content_fields) I) as H2.
  split; by intros ->.
Qed.

(** C6: each document of [generate_incidents] is its catalog entry with two
    keys added, the index name and [created_at]; every content field is
    present in the entry and has the same value in the document, and with
    [created_at] deleted the document does not depend on the call. *)
Theorem C6_incident_content_unchanged w :
  exists docs w',
    generate_incidents w = Ok docs w' /\
    Forall2 (fun inc d : dict =>
               inc !! "created_at" = None /\ inc !! "_index" = None /\
               (exists t, d = <["created_at" := VDate t]>
                                (<["_index" := VStr "soc-incidents"]> inc)) /\
               delete "created_at" d = <["_index" := VStr "soc-incidents"]> inc /\
               Forall (fun key => is_Some (inc !! key) /\ d !! key = inc !! key)
                      content_fields)
            HISTORICAL_INCIDENTS docs.
Proof.
  destruct (generate_incidents_spec w) as (docs & w' & Hrun & Hlen & Hall).
  exists docs, w'. split; [done|].
  apply Forall2_same_length_lookup_2; [done|].
  intros i inc d Hinc Hd.
  destruct (Hall i inc d Hinc Hd) as (days & _ & ->).
  pose proof catalog_keys as Hkeys. rewrite Forall_lookup in Hkeys.
  destruct (Hkeys i inc Hinc) as (Hcreated & Hindex & Hcontent).
  split_and!; [done | done | by eexists | |].
  - rewrite delete_insert_eq. apply delete_id.
    by rewrite lookup_insert_ne.
  - rewrite Forall_forall in Hcontent. apply Forall_forall. intros key Hkey.
    split; [by apply Hcontent|].
    destruct (content_field_not_added key Hkey) as [H1 H2].
    by rewrite !lookup_insert_ne.
Qed.

(** C7 (as stated, refuted): the memory range of the [cpu_spike] scenario
    (60 to 80) meets the healthy one (30 to 70), and the CPU range of the
    [oom_crash] scenario (50 to 75) meets the healthy one (10 to 55): an
    incident sample and a normal sample can carry the same value. *)
Lemma C7_incident_and_healthy_ranges_overlap :
  fields_of "mem_pct" (generate_incident_metrics 0 "cpu_spike" (Some 1) (constant_world 0))
  = Some [ Some (VFloat 60) ] /\
  fields_of "mem_pct" (generate_normal_metrics 0 (Some 1) (constant_world (3 * 2 ^ 51)))
  = Some [ Some (VFloat 60) ] /\
  fields_of "cpu_pct" (generate_incident_metrics 0 "oom_crash" (Some 1)
                                                 (constant_world (45 * 2 ^ 44)))
  = Some [ Some (VFloat (261 # 5)) ] /\
  fields_of "cpu_pct" (generate_normal_metrics 0 (Some 1) (constant_world (15 * 2 ^ 49)))
  = Some [ Some (VFloat (261 # 5)) ].
Proof. split_and!; by vm_compute. Qed.

Lemma float_fields_differ (key : string) (d1 d2 : dict) (lo1 hi1 lo2 hi2 : Q) :
  float_field_within key lo1 hi1 d1 -> float_field_within key lo2 hi2 d2 ->
  (hi1 < lo2)%Q -> d2 !! key <> d1 !! key.
Proof.
  intros (q1 & -> & H1) (q2 & -> & H2) Hlt Heq.
  injection Heq as ->. lra.
Qed.

Lemma int_fields_differ (key : string) (d1 d2 : dict) (lo1 hi1 lo2 hi2 : Z) :
  int_field_within key lo1 hi1 d1 -> int_field_within key lo2 hi2 d2 ->
  hi1 < lo2 -> d2 !! key <> d1 !! key.
Proof.
  intros (q1 & -> & H1) (q2 & -> & H2) Hlt Heq.
  injection Heq as ->. lia.
Qed.

(** C7 (amended): whatever the scenario, an incident metric sample differs
    from every normal metric sample in [disk_io], [net_in] and [net_out];
    it differs in [cpu_pct] unless the scenario is [oom_crash], and in
    [mem_pct] unless the scenario is [cpu_spike].  (Each generator returns
    its samples unless its anchor is less than its look-back after
    [datetime_min].) *)
Theorem C7_incident_metrics_leave_healthy_ranges (base base' : datetime)
    (scenario : string) (count count' : option Z) w w' :
  returns_anchored (60 * minute) base (generate_normal_metrics base count w)
    (fun normal =>
       returns_anchored (15 * minute) base'
         (generate_incident_metrics base' scenario count' w')
         (fun incident =>
            Forall (fun dn : dict =>
              Forall (fun di : dict =>
                di !! "disk_io" <> dn !! "disk_io" /\
                di !! "net_in" <> dn !! "net_in" /\
                di !! "net_out" <> dn !! "net_out" /\
                (scenario = "oom_crash" \/ di !! "cpu_pct" <> dn !! "cpu_pct") /\
                (scenario = "cpu_spike" \/ di !! "mem_pct" <> dn !! "mem_pct"))
              incident) normal)).
Proof.
  eapply returns_anchored_intro; [apply generate_normal_metrics_spec|].
  intros normal _ [_ Hnormal].
  eapply returns_anchored_intro; [apply generate_incident_metrics_spec|].
  intros incident _ (_ & h1 & h2 & _ & _ & _ & _ & Hincident).
  eapply Forall_impl; [exact Hnormal|]. intros dn Hdn.
  eapply Forall_impl; [exact Hincident|]. intros di Hdi.
  apply metric_sample_fields in Hdn as (_ & _ & _ & _ & Hc & Hm & Hd & Hni & Hno).
  apply metric_sample_fields in Hdi as (_ & _ & _ & _ & Hc' & Hm' & Hd' & Hni' & Hno').
  unfold incident_ranges in *.
  cbn [normal_ranges cpu_range mem_range disk_range net_in_range net_out_range
       fst snd] in *.
  split_and!.
  - eapply float_fields_differ; [exact Hd | exact Hd' | lra].
  - eapply int_fields_differ; [exact Hni | exact Hni' | lia].
  - eapply int_fields_differ; [exact Hno | exact Hno' | lia].
  - destruct (String.eqb_spec scenario "cpu_spike") as [->|_].
    { right. eapply float_fields_differ; [exact Hc | exact Hc' | cbn; lra]. }
    destruct (String.eqb_spec scenario "oom_crash") as [->|_]; [by left|].
    right. eapply float_fields_differ; [exact Hc | exact Hc' | cbn; lra].
  - destruct (String.eqb_spec scenario "cpu_spike") as [->|_]; [by left|].
    right. destruct (String.eqb scenario "oom_crash");
      (eapply float_fields_differ; [exact Hm | exact Hm' | cbn; lra]).
Qed.

(** *** Seeding and the datastore *)

Lemma str_field_in_weaken (key : string) (l k : list string) (d : dict) :
  l ⊆ k -> str_field_in key l d -> str_field_in key k d.
Proof. intros Hsub (s & ? & ?). exists s. split; [done|]. by apply Hsub. Qed.

(** Anchored at a reading of the clock, the generators return: the
    reading is late enough for every look-back. *)
Lemma clock_anchor_60 w (i : nat) : anchor_in_range (60 * minute) (clock_src w i).
Proof. apply clock_reading_in_range. unfold minute, day. lia. Qed.

Lemma clock_anchor_15 w (i : nat) : anchor_in_range (15 * minute) (clock_src w i).
Proof. apply clock_reading_in_range. unfold minute, day. lia. Qed.

Lemma generate_normal_logs_seeded w0 (i : nat) (count : option Z) w :
  wp (generate_normal_logs (clock_src w0 i) count)
     (fun docs _ =>
        length docs = Z.to_nat (default 200 count) /\
        Forall (log_entry (clock_src w0 i) (60 * minute) SERVICES HOSTS
                          LOG_LEVELS_NORMAL) docs) w.
Proof.
  eapply wp_anchored; [apply clock_anchor_60 | apply generate_normal_logs_spec].
Qed.

Lemma generate_normal_metrics_seeded w0 (i : nat) (count : option Z) w :
  wp (generate_normal_metrics (clock_src w0 i) count)
     (fun docs _ =>
        length docs = Z.to_nat (default 100 count) /\
        Forall (metric_sample (clock_src w0 i) (60 * minute) HOSTS normal_ranges) docs) w.
Proof.
  eapply wp_anchored; [apply clock_anchor_60 | apply generate_normal_metrics_spec].
Qed.

Lemma generate_incident_logs_seeded w0 (i : nat) (scenario : string)
    (count : option Z) w :
  scenario ∈ scenarios ->
  wp (generate_incident_logs (clock_src w0 i) scenario count)
     (fun docs _ =>
        length docs = Z.to_nat (default 80 count) /\
        Forall (log_entry (clock_src w0 i) (15 * minute) (take 4 SERVICES)
                          (take 4 HOSTS) LOG_LEVELS_INCIDENT) docs) w.
Proof.
  intros Hsc.
  eapply wp_anchored; [apply clock_anchor_15 | by apply generate_incident_logs_spec].
Qed.

Lemma generate_incident_metrics_seeded w0 (i : nat) (scenario : string)
    (count : option Z) w :
  wp (generate_incident_metrics (clock_src w0 i) scenario count)
     (fun docs _ =>
        length docs = Z.to_nat (default 50 count) /\
        exists h1 h2,
          (exists w1, random_sample (take 4 HOSTS) 2 w = Ok [h1; h2] w1) /\
          h1 <> h2 /\ h1 ∈ take 4 HOSTS /\ h2 ∈ take 4 HOSTS /\
          Forall (metric_sample (clock_src w0 i) (15 * minute) [h1; h2]
                                (incident_ranges scenario)) docs) w.
Proof.
  eapply wp_anchored; [apply clock_anchor_15 | apply generate_incident_metrics_spec].
Qed.

Lemma seed_scenario_spec (scenario : string) w :
  scenario ∈ scenarios ->
  wp (seed_scenario scenario)
     (fun docs _ =>
        length docs = (200 + 100 + 80 + 50 + length HISTORICAL_INCIDENTS)%nat /\
        Forall (str_field_in "_index" populated_indices) docs) w.
Proof.
  intros Hsc. unfold seed_scenario.
  apply wp_bind, wp_datetime_now. intros w0 _ _.
  apply wp_bind. eapply wp_mono; [apply generate_normal_logs_seeded|].
  intros d1 w1 [Hl1 H1]. cbv beta.
  apply wp_bind. eapply wp_mono; [apply generate_normal_metrics_seeded|].
  intros d2 w2 [Hl2 H2]. cbv beta.
  apply wp_bind. eapply wp_mono; [by apply generate_incident_logs_seeded|].
  intros d3 w3 [Hl3 H3]. cbv beta.
  apply wp_bind. eapply wp_mono; [apply generate_incident_metrics_seeded|].
  intros d4 w4 (Hl4 & h1 & h2 & _ & _ & _ & _ & H4). cbv beta.
  apply wp_bind. eapply wp_mono; [apply generate_incidents_index|].
  intros d5 w5 [Hl5 H5]. cbv beta.
  apply wp_ret. split.
  - rewrite !length_app, Hl1, Hl2, Hl3, Hl4, Hl5. done.
  - rewrite !Forall_app. split_and!.
    + eapply Forall_impl; [exact H1|]. intros d Hd.
      apply log_entry_fields in Hd as (Hd & _).
      eapply str_field_in_weaken; [|exact Hd]. set_solver.
    + eapply Forall_impl; [exact H2|]. intros d Hd.
      apply metric_sample_fields in Hd as (Hd & _).
      eapply str_field_in_weaken; [|exact Hd]. set_solver.
    + eapply Forall_impl; [exact H3|]. intros d Hd.
      apply log_entry_fields in Hd as (Hd & _).
      eapply str_field_in_weaken; [|exact Hd]. set_solver.
    + eapply Forall_impl; [exact H4|]. intros d Hd.
      apply metric_sample_fields in Hd as (Hd & _).
      eapply str_field_in_weaken; [|exact Hd]. set_solver.
    + eapply Forall_impl; [exact H5|]. intros d Hd.
      eapply str_field_in_weaken; [|exact Hd]. set_solver.
Qed.

Lemma bulk_index_other (es : es_state) (d : dict) (index_name target : string) :
  d !! "_index" = Some (VStr target) -> target <> index_name ->
  bulk_index es d !! index_name = es !! index_name.
Proof.
  intros Hd Hne. unfold bulk_index. rewrite Hd.
  destruct (es !! target) as [[mapping docs]|]; by rewrite lookup_insert_ne.
Qed.

Lemma helpers_bulk_other (es : es_state) (docs : list dict) (index_name : string)
    (targets : list string) :
  index_name ∉ targets ->
  Forall (str_field_in "_index" targets) docs ->
  helpers_bulk es docs !! index_name = es !! index_name.
Proof.
  intros Hout Hdocs. revert es.
  induction Hdocs as [|d docs (target & Hd & Hin) _ IH]; intros es; [done|].
  unfold helpers_bulk in *. cbn [foldl]. rewrite IH.
  eapply bulk_index_other; [done|]. by intros ->.
Qed.

Lemma create_indices_soc_actions (es : es_state) :
  exists mapping,
    ("soc-actions", mapping) ∈ MAPPINGS /\
    create_indices es !! "soc-actions" = Some (mapping, []).
Proof.
  eexists. split.
  - unfold MAPPINGS. do 3 apply list_elem_of_further. apply list_elem_of_here.
  - unfold create_indices, MAPPINGS. cbn [foldl fst snd]. apply lookup_insert_eq.
Qed.

(** C9: for a scenario of the three, every document of the batch that
    [seed_scenario] assembles targets [soc-logs], [soc-metrics] or
    [soc-incidents], never [soc-actions]; so once the indices are created
    and the batch is written, [soc-actions] holds its mapping and no
    document. *)
Theorem C9_soc_actions_never_populated (scenario : string) w :
  scenario ∈ scenarios ->
  ("soc-actions" ∉ populated_indices) /\
  exists docs w' mapping,
    seed_scenario scenario w = Ok docs w' /\
    Forall (str_field_in "_index" populated_indices) docs /\
    ("soc-actions", mapping) ∈ MAPPINGS /\
    forall es, helpers_bulk (create_indices es) docs !! "soc-actions"
               = Some (mapping, []).
Proof.
  intros Hsc.
  assert ("soc-actions" ∉ populated_indices) as Hout
    by (by apply (bool_decide_unpack ("soc-actions" ∉ populated_indices))).
  split; [done|].
  pose proof (seed_scenario_spec scenario w Hsc) as H.
  destruct (wp_run _ _ _ H)
    as (docs & w' & Hrun & _ & Hdocs).
  destruct (create_indices_soc_actions ∅) as (mapping & Hin & _).
  exists docs, w', mapping. split_and!; [done..|].
  intros es. rewrite (helpers_bulk_other _ _ _ populated_indices) by done.
  unfold create_indices, MAPPINGS in *. cbn [foldl fst snd].
  rewrite lookup_insert_eq. f_equal. f_equal.
  repeat (apply elem_of_cons in Hin as [Hin|Hin]; [by injection Hin|]).
  by apply elem_of_nil in Hin.
Qed.

Lemma C9_soc_actions_never_populated_witness :
  exists docs w' mapping,
    seed_scenario "cpu_spike" sample_world = Ok docs w' /\
    Forall (str_field_in "_index" populated_indices) docs /\
    ("soc-actions", mapping) ∈ MAPPINGS /\
    forall es, helpers_bulk (create_indices es) docs !! "soc-actions"
               = Some (mapping, []).
Proof.
  apply (C9_soc_actions_never_populated "cpu_spike" sample_world).
  apply scenario_in_known. reflexivity.
Defined.

(** ** Further properties of the generators *)

(** X1: a normal log has level INFO, DEBUG or WARN, never an error level;
    an incident log (for a scenario of the three) has level ERROR,
    CRITICAL, FATAL or WARN, never INFO or DEBUG.  (The generators return
    their documents unless the anchor is less than the look-back after
    [datetime_min].) *)
Theorem X1_log_levels (base : datetime) (scenario : string) (count : option Z) w :
  returns_anchored (60 * minute) base (generate_normal_logs base count w)
    (Forall (str_field_in "level" [ "INFO"; "DEBUG"; "WARN" ])) /\
  (scenario ∈ scenarios ->
   returns_anchored (15 * minute) base (generate_incident_logs base scenario count w)
     (Forall (str_field_in "level" [ "ERROR"; "CRITICAL"; "FATAL"; "WARN" ]))).
Proof.
  split; [|intros Hsc].
  - eapply returns_anchored_intro; [apply generate_normal_logs_spec|].
    intros docs _ [_ H]. eapply Forall_impl; [exact H|].
    intros d Hd. apply log_entry_fields in Hd as (_ & _ & _ & _ & Hd).
    eapply str_field_in_weaken; [|exact Hd].
    intros l Hl. unfold LOG_LEVELS_NORMAL in Hl.
    repeat (apply elem_of_cons in Hl as [->|Hl]); [..|by apply elem_of_nil in Hl];
      repeat first [apply list_elem_of_here | apply list_elem_of_further].
  - eapply returns_anchored_intro; [by apply generate_incident_logs_spec|].
    intros docs _ [_ H]. eapply Forall_impl; [exact H|].
    intros d Hd. apply log_entry_fields in Hd as (_ & _ & _ & _ & Hd).
    eapply str_field_in_weaken; [|exact Hd].
    intros l Hl. unfold LOG_LEVELS_INCIDENT in Hl.
    repeat (apply elem_of_cons in Hl as [->|Hl]); [..|by apply elem_of_nil in Hl];
      repeat first [apply list_elem_of_here | apply list_elem_of_further].
Qed.

Lemma X1_log_levels_witness :
  returns_anchored (15 * minute) 1700000000000000
    (generate_incident_logs 1700000000000000 "oom_crash" (Some 3) sample_world)
    (Forall (str_field_in "level" [ "ERROR"; "CRITICAL"; "FATAL"; "WARN" ])).
Proof.
  refine (proj2 (X1_log_levels 1700000000000000 "oom_crash" (Some 3) sample_world) _).
  apply scenario_in_known. reflexivity.
Defined.

(** X2: every normal metric sample has its CPU percentage in 10..55, its
    memory percentage in 30..70, its disk I/O in 0.5..20, its inbound
    traffic in 100000..5000000 and its outbound traffic in
    50000..3000000, rounding included. *)
Theorem X2_normal_metric_ranges (base : datetime) (count : option Z) w :
  returns_anchored (60 * minute) base (generate_normal_metrics base count w)
    (Forall (fun d => float_field_within "cpu_pct" 10 55 d /\
                      float_field_within "mem_pct" 30 70 d /\
                      float_field_within "disk_io" (1 # 2) 20 d /\
                      int_field_within "net_in" 100000 5000000 d /\
                      int_field_within "net_out" 50000 3000000 d)).
Proof.
  eapply returns_anchored_intro; [apply generate_normal_metrics_spec|].
  intros docs _ [_ H]. eapply Forall_impl; [exact H|].
  intros d Hd. by apply metric_sample_fields in Hd as (_ & _ & _ & _ & ?).
Qed.

Lemma incident_metric_fields (base : datetime) (scenario : string)
    (count : option Z) w (P : dict -> Prop) :
  (forall d,
     float_field_within "cpu_pct" (cpu_range (incident_ranges scenario)).1
                                  (cpu_range (incident_ranges scenario)).2 d /\
     float_field_within "mem_pct" (mem_range (incident_ranges scenario)).1
                                  (mem_range (incident_ranges scenario)).2 d /\
     float_field_within "disk_io" 50 200 d /\
     int_field_within "net_in" 10000000 50000000 d /\
     int_field_within "net_out" 5000000 30000000 d -> P d) ->
  returns_anchored (15 * minute) base (generate_incident_metrics base scenario count w)
    (Forall P).
Proof.
  intros HP. eapply returns_anchored_intro; [apply generate_incident_metrics_spec|].
  intros docs _ (_ & h1 & h2 & _ & _ & _ & _ & H). eapply Forall_impl; [exact H|].
  intros d Hd. apply HP. by apply metric_sample_fields in Hd as (_ & _ & _ & _ & ?).
Qed.

Lemma float_field_within_weaken (key : string) (lo hi lo' hi' : Q) (d : dict) :
  (lo' <= lo)%Q -> (hi <= hi')%Q ->
  float_field_within key lo hi d -> float_field_within key lo' hi' d.
Proof. intros ? ? (q & ? & ?). exists q. split; [done|]. lra. Qed.

(** X3: an incident metric sample has CPU in 92..100 and memory in 60..80
    for [cpu_spike], CPU in 50..75 and memory in 95..100 for [oom_crash],
    CPU in 80..98 and memory in 75..95 for [cascading_failure]; for every
    scenario string both are percentages (at most 100), disk I/O is in
    50..200, inbound traffic in 10000000..50000000 and outbound traffic in
    5000000..30000000. *)
Theorem X3_incident_metric_ranges (base : datetime) (scenario : string)
    (count : option Z) w :
  returns_anchored (15 * minute) base
    (generate_incident_metrics base "cpu_spike" count w)
    (Forall (fun d => float_field_within "cpu_pct" 92 100 d /\
                      float_field_within "mem_pct" 60 80 d)) /\
  returns_anchored (15 * minute) base
    (generate_incident_metrics base "oom_crash" count w)
    (Forall (fun d => float_field_within "cpu_pct" 50 75 d /\
                      float_field_within "mem_pct" 95 100 d)) /\
  returns_anchored (15 * minute) base
    (generate_incident_metrics base "cascading_failure" count w)
    (Forall (fun d => float_field_within "cpu_pct" 80 98 d /\
                      float_field_within "mem_pct" 75 95 d)) /\
  returns_anchored (15 * minute) base
    (generate_incident_metrics base scenario count w)
    (Forall (fun d => float_field_within "cpu_pct" 50 100 d /\
                      float_field_within "mem_pct" 60 100 d /\
                      float_field_within "disk_io" 50 200 d /\
                      int_field_within "net_in" 10000000 50000000 d /\
                      int_field_within "net_out" 5000000 30000000 d)).
Proof.
  split_and!.
  - apply incident_metric_fields. by intros d (? & ? & _).
  - apply incident_metric_fields. by intros d (? & ? & _).
  - apply incident_metric_fields. by intros d (? & ? & _).
  - apply incident_metric_fields.
    intros d (Hc & Hm & Hd & Hi & Ho). unfold incident_ranges in Hc, Hm.
    cbn [cpu_range mem_range] in Hc, Hm.
    split_and!; [| |done..].
    + destruct (String.eqb scenario "cpu_spike"); [|destruct (String.eqb scenario "oom_crash")];
        (eapply float_field_within_weaken; [| |exact Hc]; cbn; lra).
    + destruct (String.eqb scenario "cpu_spike"); [|destruct (String.eqb scenario "oom_crash")];
        (eapply float_field_within_weaken; [| |exact Hm]; cbn; lra).
Qed.

(** *** Documents against the declared mappings *)

Ltac literal_dom :=
  rewrite dom_delete_L, !dom_insert_L, dom_empty_L; cbn [fmap list_fmap fst];
  apply set_eq; intros key;
  rewrite elem_of_difference, !elem_of_union, !elem_of_singleton,
    !elem_of_list_to_set, !elem_of_cons, elem_of_nil, elem_of_empty;
  intuition (subst; try discriminate; auto 12).

Ltac literal_fields :=
  repeat apply Forall_cons_2; [..|apply Forall_nil_2];
  (eexists; split;
   [ cbn [fst snd];
     repeat first [apply lookup_insert_eq | rewrite lookup_insert_ne by done]
   | reflexivity ]).

Lemma log_doc_well_formed (t : datetime) (service level msg host trace_id : string) :
  well_formed (log_doc (VDate t) service level msg host trace_id).
Proof.
  eexists "soc-logs", _. split_and!.
  - by vm_compute.
  - unfold MAPPINGS. apply list_elem_of_here.
  - unfold log_doc, dict_literal. cbn [foldl fst snd].
    split; [literal_dom | literal_fields].
Qed.

Lemma metric_doc_well_formed (t : datetime) (host : string) (cpu mem disk_io : Q)
    (net_in net_out : Z) :
  well_formed (metric_doc (VDate t) host cpu mem disk_io net_in net_out).
Proof.
  eexists "soc-metrics", _. split_and!.
  - by vm_compute.
  - unfold MAPPINGS. apply list_elem_of_further, list_elem_of_here.
  - unfold metric_doc, dict_literal. cbn [foldl fst snd].
    split; [literal_dom | literal_fields].
Qed.

Lemma incident_doc_well_formed :
  Forall (fun inc : dict =>
            forall t, well_formed (<["created_at" := VDate t]>
                                     (<["_index" := VStr "soc-incidents"]> inc)))
         HISTORICAL_INCIDENTS.
Proof.
  unfold HISTORICAL_INCIDENTS, dict_literal. cbn [foldl fst snd].
  repeat apply Forall_cons_2; [..|apply Forall_nil_2];
    (intros t; eexists "soc-incidents", _; split_and!;
     [ rewrite lookup_insert_ne by done; apply lookup_insert_eq
     | unfold MAPPINGS; do 2 apply list_elem_of_further; apply list_elem_of_here
     | split; [literal_dom | literal_fields] ]).
Qed.

(** *** The batch of one seeding *)

Lemma generate_incidents_shape w :
  wp generate_incidents
     (fun docs _ =>
        Forall2 (fun inc d : dict =>
                   exists t, d = <["created_at" := VDate t]>
                                   (<["_index" := VStr "soc-incidents"]> inc))
                HISTORICAL_INCIDENTS docs) w.
Proof.
  destruct (generate_incidents_spec w) as (docs & w' & Hrun & Hlen & Hall).
  apply (wp_intro _ _ _ docs w' Hrun).
  apply Forall2_same_length_lookup_2; [done|].
  intros i inc d Hinc Hd. destruct (Hall i inc d Hinc Hd) as (days & _ & ->).
  by eexists.
Qed.

Lemma seed_scenario_shape (scenario : string) w :
  scenario ∈ scenarios ->
  wp (seed_scenario scenario)
     (fun docs _ =>
        exists l1 l2 l3 l4 l5,
          docs = (l1 ++ l2 ++ l3 ++ l4 ++ l5)%list /\
          (length l1 = 200%nat /\
           Forall (log_entry (clock_reading w 0) (60 * minute) SERVICES HOSTS
                             LOG_LEVELS_NORMAL) l1) /\
          (length l2 = 100%nat /\
           Forall (metric_sample (clock_reading w 0) (60 * minute) HOSTS
                                 normal_ranges) l2) /\
          (length l3 = 80%nat /\
           Forall (log_entry (clock_reading w 0) (15 * minute) (take 4 SERVICES)
                             (take 4 HOSTS) LOG_LEVELS_INCIDENT) l3) /\
          (length l4 = 50%nat /\
           exists h1 h2,
             Forall (metric_sample (clock_reading w 0) (15 * minute) [h1; h2]
                                   (incident_ranges scenario)) l4) /\
          Forall2 (fun inc d : dict =>
                     exists t, d = <["created_at" := VDate t]>
                                     (<["_index" := VStr "soc-incidents"]> inc))
                  HISTORICAL_INCIDENTS l5) w.
Proof.
  intros Hsc. unfold seed_scenario, clock_reading. rewrite Nat.add_0_r.
  apply wp_bind, wp_datetime_now. intros w0 _ _.
  apply wp_bind. eapply wp_mono; [apply generate_normal_logs_seeded|].
  intros d1 w1 [Hl1 H1]. cbv beta.
  apply wp_bind. eapply wp_mono; [apply generate_normal_metrics_seeded|].
  intros d2 w2 [Hl2 H2]. cbv beta.
  apply wp_bind. eapply wp_mono; [by apply generate_incident_logs_seeded|].
  intros d3 w3 [Hl3 H3]. cbv beta.
  apply wp_bind. eapply wp_mono; [apply generate_incident_metrics_seeded|].
  intros d4 w4 (Hl4 & h1 & h2 & _ & _ & _ & _ & H4). cbv beta.
  apply wp_bind. eapply wp_mono; [apply generate_incidents_shape|].
  intros d5 w5 H5. cbv beta.
  apply wp_ret. exists d1, d2, d3, d4, d5.
  split_and!; [done | exact Hl1 | exact H1 | exact Hl2 | exact H2 | exact Hl3
              | exact H3 | exact Hl4 | by exists h1, h2 | exact H5].
Qed.

(** X4: every document of the batch that [seed_scenario] assembles (for a
    scenario of the three) names an index declared in [MAPPINGS] and
    carries, besides [_index], exactly the fields that index declares, each
    with a value of the declared type. *)
Theorem X4_seeded_documents_match_mappings (scenario : string) w :
  scenario ∈ scenarios ->
  returns_all (seed_scenario scenario w) well_formed.
Proof.
  intros Hsc. eapply returns_all_intro; [by apply seed_scenario_shape|].
  intros docs (l1 & l2 & l3 & l4 & l5 & -> & [_ H1] & [_ H2] & [_ H3]
               & (_ & h1 & h2 & H4) & H5).
  rewrite !Forall_app. split_and!.
  - eapply Forall_impl; [exact H1|].
    intros d (t & service & level & msg & host & trace_id & -> & _).
    apply log_doc_well_formed.
  - eapply Forall_impl; [exact H2|].
    intros d (t & host & cpu & mem & disk_io & net_in & net_out & -> & _).
    apply metric_doc_well_formed.
  - eapply Forall_impl; [exact H3|].
    intros d (t & service & level & msg & host & trace_id & -> & _).
    apply log_doc_well_formed.
  - eapply Forall_impl; [exact H4|].
    intros d (t & host & cpu & mem & disk_io & net_in & net_out & -> & _).
    apply metric_doc_well_formed.
  - pose proof incident_doc_well_formed as Hwf. rewrite Forall_lookup in Hwf.
    apply Forall_lookup. intros i d Hd.
    destruct (Forall2_lookup_r _ _ _ _ _ H5 Hd) as (inc & Hinc & t & ->).
    by apply (Hwf i inc).
Qed.

Lemma X4_seeded_documents_match_mappings_witness :
  returns_all (seed_scenario "cascading_failure" sample_world) well_formed.
Proof.
  apply (X4_seeded_documents_match_mappings "cascading_failure" sample_world).
  apply scenario_in_known. reflexivity.
Defined.

Lemma seed_scenario_layout (scenario : string) w :
  scenario ∈ scenarios ->
  exists docs w',
    seed_scenario scenario w = Ok docs w' /\
    length docs = 438%nat /\
    str_fields "_index" docs
    = (replicate 200 "soc-logs" ++ replicate 100 "soc-metrics" ++
       replicate 80 "soc-logs" ++ replicate 50 "soc-metrics" ++
       replicate 8 "soc-incidents")%list.
Proof.
  intros Hsc.
  assert (forall (l : list dict) (n : nat) (s : string),
            length l = n -> Forall (str_field_in "_index" [s]) l ->
            str_fields "_index" l = replicate n s) as Hrep.
  { intros l n s <-. induction 1 as [|d l (s' & Hs' & Hin) _ IH]; [done|].
    apply list_elem_of_singleton in Hin as ->.
    unfold str_fields in *. cbn [omap list_omap]. rewrite Hs'. cbn. by rewrite IH. }
  destruct (wp_run _ _ _ (seed_scenario_shape scenario w Hsc))
    as (docs & w' & Hrun & l1 & l2 & l3 & l4 & l5 & -> & [Hl1 H1] & [Hl2 H2]
        & [Hl3 H3] & (Hl4 & h1 & h2 & H4) & H5).
  assert (length l5 = 8%nat) as Hl5 by (by apply Forall2_length in H5).
  exists (l1 ++ l2 ++ l3 ++ l4 ++ l5)%list, w'. split_and!; [done| |].
  - rewrite !length_app. lia.
  - unfold str_fields. rewrite !omap_app. fold (str_fields "_index").
    f_equal; [|f_equal; [|f_equal; [|f_equal]]]; apply Hrep; try done.
    + eapply Forall_impl; [exact H1|]. intros d Hd.
      by apply log_entry_fields in Hd as (? & _).
    + eapply Forall_impl; [exact H2|]. intros d Hd.
      by apply metric_sample_fields in Hd as (? & _).
    + eapply Forall_impl; [exact H3|]. intros d Hd.
      by apply log_entry_fields in Hd as (? & _).
    + eapply Forall_impl; [exact H4|]. intros d Hd.
      by apply metric_sample_fields in Hd as (? & _).
    + apply Forall_lookup. intros i d Hd.
      destruct (Forall2_lookup_r _ _ _ _ _ H5 Hd) as (inc & Hinc & t & ->).
      exists "soc-incidents". split; [|apply list_elem_of_here].
      rewrite lookup_insert_ne by done. apply lookup_insert_eq.
Qed.

(** X7: the batch of one seeding is laid out as 200 log documents, 100
    metric documents, 80 log documents, 50 metric documents and the 8
    incident documents, in this order: 438 documents, of which 280 go to
    [soc-logs], 150 to [soc-metrics] and 8 to [soc-incidents]. *)
Theorem X7_seeded_batch_layout (scenario : string) w :
  scenario ∈ scenarios ->
  exists docs w',
    seed_scenario scenario w = Ok docs w' /\
    length docs = 438%nat /\
    str_fields "_index" docs
    = (replicate 200 "soc-logs" ++ replicate 100 "soc-metrics" ++
       replicate 80 "soc-logs" ++ replicate 50 "soc-metrics" ++
       replicate 8 "soc-incidents")%list.
Proof. apply seed_scenario_layout. Qed.

Lemma X7_seeded_batch_layout_witness :
  exists docs w',
    seed_scenario "oom_crash" sample_world = Ok docs w' /\
    length docs = 438%nat /\
    str_fields "_index" docs
    = (replicate 200 "soc-logs" ++ replicate 100 "soc-metrics" ++
       replicate 80 "soc-logs" ++ replicate 50 "soc-metrics" ++
       replicate 8 "soc-incidents")%list.
Proof.
  apply (X7_seeded_batch_layout "oom_crash" sample_world).
  apply scenario_in_known. reflexivity.
Defined.

(** *** Scenario keys and counts at the edges *)

(** X5: for a scenario key outside the three, [generate_incident_logs]
    raises [KeyError] with that key, and so does [seed_scenario]: no batch
    is assembled. *)
Theorem X5_unknown_scenario_raises_key_error (base : datetime) (scenario : string)
    (count : option Z) w :
  scenario ∉ scenarios ->
  generate_incident_logs base scenario count w = Raise (KeyError scenario) /\
  seed_scenario scenario w = Raise (KeyError scenario).
Proof.
  intros Hsc. split; [by apply generate_incident_logs_unknown|].
  unfold seed_scenario, bind at 1 2 3. unfold datetime_now.
  match goal with
  | |- context [generate_normal_logs ?b ?c ?w0] =>
      destruct (wp_run _ _ _ (generate_normal_logs_seeded w (clock_pos w) c w0))
        as (d1 & w1 & R1 & _)
  end.
  rewrite R1.
  match goal with
  | |- context [generate_normal_metrics ?b ?c ?w0] =>
      destruct (wp_run _ _ _ (generate_normal_metrics_seeded w (clock_pos w) c w0))
        as (d2 & w2 & R2 & _)
  end.
  rewrite R2. unfold bind. by rewrite generate_incident_logs_unknown.
Qed.

Lemma X5_unknown_scenario_raises_key_error_witness :
  generate_incident_logs 0 "disk_full" None sample_world = Raise (KeyError "disk_full") /\
  seed_scenario "disk_full" sample_world = Raise (KeyError "disk_full").
Proof.
  apply (X5_unknown_scenario_raises_key_error 0 "disk_full" None sample_world).
  apply (bool_decide_unpack ("disk_full" ∉ scenarios)). exact I.
Defined.

(** X6: a count that is zero or negative gives no document: the normal
    generators and [generate_incident_logs] (for a scenario of the three)
    return the empty list and draw nothing, [generate_incident_metrics]
    returns the empty list. *)
Theorem X6_non_positive_count_gives_no_document (base : datetime)
    (scenario : string) (n : Z) w :
  n <= 0 ->
  generate_normal_logs base (Some n) w = Ok [] w /\
  generate_normal_metrics base (Some n) w = Ok [] w /\
  (scenario ∈ scenarios -> generate_incident_logs base scenario (Some n) w = Ok [] w) /\
  exists w', generate_incident_metrics base scenario (Some n) w = Ok [] w'.
Proof.
  intros Hn. assert (Z.to_nat n = 0%nat) as Hzero by lia.
  split_and!.
  - unfold generate_normal_logs, for_range. cbn [default from_option id].
    by rewrite Hzero.
  - unfold generate_normal_metrics, for_range. cbn [default from_option id].
    by rewrite Hzero.
  - intros Hsc. destruct (error_messages_known scenario Hsc) as [msgs Hmsgs].
    unfold generate_incident_logs, for_range, bind, subscript.
    cbn [default from_option id]. by rewrite Hmsgs, Hzero.
  - destruct (random_sample_hosts w) as (h1 & h2 & w0 & Hsample & _).
    exists w0. unfold generate_incident_metrics, for_range, bind.
    cbn [default from_option id]. by rewrite Hsample, Hzero.
Qed.

Lemma X6_non_positive_count_gives_no_document_witness :
  generate_incident_logs 0 "cpu_spike" (Some (-3)) sample_world = Ok [] sample_world.
Proof.
  apply (X6_non_positive_count_gives_no_document 0 "cpu_spike" (-3) sample_world).
  - lia.
  - apply scenario_in_known. reflexivity.
Defined.

(** X12: [generate_incident_metrics] accepts every scenario string: a
    string other than [cpu_spike] and [oom_crash] gives the run of
    [cascading_failure], and whatever the string the call returns the
    records requested and raises no [KeyError]; the one exception it can
    raise is the [OverflowError] of an anchor less than 15 minutes after
    [datetime_min]. *)
Theorem X12_incident_metrics_accept_any_scenario (base : datetime)
    (scenario : string) (count : option Z) w :
  (scenario = "cpu_spike" \/ scenario = "oom_crash" \/
   generate_incident_metrics base scenario count w
   = generate_incident_metrics base "cascading_failure" count w) /\
  (forall key, generate_incident_metrics base scenario count w <> Raise (KeyError key)) /\
  returns_anchored (15 * minute) base (generate_incident_metrics base scenario count w)
    (fun docs => length docs = Z.to_nat (default 50 count)).
Proof.
  assert (returns_anchored (15 * minute) base
            (generate_incident_metrics base scenario count w)
            (fun docs => length docs = Z.to_nat (default 50 count))) as Hrun.
  { eapply returns_anchored_intro; [apply generate_incident_metrics_spec|].
    by intros docs _ [? _]. }
  split_and!; [| |done].
  - destruct (decide (scenario = "cpu_spike")) as [|H1]; [by left|].
    destruct (decide (scenario = "oom_crash")) as [|H2]; [by right; left|].
    right; right. by rewrite incident_metrics_else_branch.
  - intros key Hkey. rewrite Hkey in Hrun. by destruct Hrun as [? _].
Qed.

(** *** The entry point and the connection *)

(** X10: [get_es_client] exits with code 1 exactly when no URL is set and
    the cloud id or the API key is missing; otherwise the client it builds
    uses the cloud id when both cloud id and key are set, else the URL with
    the key when the key is set, and the bare URL only when there is no
    key. *)
Theorem X10_es_client_selection (url key cloud : string) :
  match get_es_client url key cloud with
  | inl (ClientCloud c k) => c = cloud /\ k = key /\ cloud <> "" /\ key <> ""
  | inl (ClientUrlKey u k) => u = url /\ k = key /\ url <> "" /\ key <> "" /\ cloud = ""
  | inl (ClientUrl u) => u = url /\ url <> "" /\ key = ""
  | inr code => code = 1 /\ url = "" /\ (cloud = "" \/ key = "")
  end.
Proof.
  unfold get_es_client, truthy.
  destruct (String.eqb_spec cloud ""), (String.eqb_spec key ""),
    (String.eqb_spec url ""); cbn; naive_solver.
Qed.

Lemma for_each_seed_known (chosen : list string) w :
  Forall (fun s => s ∈ scenarios) chosen ->
  wp (for_each chosen seed_scenario)
     (fun batches _ =>
        length batches = length chosen /\
        Forall (fun batch : list dict => length batch = 438%nat) batches) w.
Proof.
  intros Hchosen. revert w.
  induction Hchosen as [|s chosen Hs _ IH]; intros w; cbn [for_each].
  - by apply wp_ret.
  - apply wp_bind. eapply wp_mono; [by apply seed_scenario_spec|].
    intros batch w1 [Hlen _]. cbv beta.
    apply wp_bind. eapply wp_mono; [apply IH|].
    intros batches w2 [Hlens Hall]. cbv beta. apply wp_ret.
    split; [cbn; by rewrite Hlens|]. by constructor.
Qed.

(** X9: whatever line the user types, and however [strip] and [int] read
    it, [main] either stops with the [ValueError] of [int] or seeds one
    scenario or all three, each of them a known scenario; every seeding then
    succeeds with a batch of 438 documents, so the [KeyError] of an unknown
    scenario cannot come from [main].  An empty line and the line 4 seed all
    three. *)
Theorem X9_main_seeds_only_known_scenarios (str_strip : string -> string)
    (int_of_str : string -> option Z) (line : string) w :
  match chosen_scenarios str_strip int_of_str line with
  | inl e => e = ValueError /\ main_seed str_strip int_of_str line w = Raise ValueError
  | inr chosen =>
      (chosen = scenarios \/ exists s, chosen = [s] /\ s ∈ scenarios) /\
      exists batches w',
        main_seed str_strip int_of_str line w = Ok batches w' /\
        length batches = length chosen /\
        Forall (fun batch : list dict => length batch = 438%nat) batches
  end /\
  (str_strip line = "" \/ str_strip line = "4" ->
   chosen_scenarios str_strip int_of_str line = inr scenarios).
Proof.
  split.
  - unfold main_seed.
    destruct (chosen_scenarios str_strip int_of_str line) as [e|chosen] eqn:Hchosen.
    + assert (e = ValueError) as ->; [|done].
      unfold chosen_scenarios in Hchosen.
      destruct (String.eqb _ "4"); [done|].
      destruct (int_of_str _); [|by injection Hchosen].
      by case_decide.
    + assert (chosen = scenarios \/ exists s, chosen = [s] /\ s ∈ scenarios) as Hshape.
      { unfold chosen_scenarios in Hchosen.
        destruct (String.eqb _ "4"); [left; by injection Hchosen|].
        destruct (int_of_str _) as [n|]; [|done].
        case_decide as Hidx; [|left; by injection Hchosen].
        right. injection Hchosen as <-. eexists; split; [done|].
        cbn [length scenarios] in Hidx.
        assert (exists i, (i < 3)%nat /\ Z.to_nat (n - 1) = i) as (i & Hi & ->)
          by (eexists; split; [|done]; lia).
        destruct i as [|[|[|?]]]; [..|lia]; cbn;
          repeat first [apply list_elem_of_here | apply list_elem_of_further]. }
      split; [done|].
      assert (Forall (fun s => s ∈ scenarios) chosen) as Hknown.
      { destruct Hshape as [->|(s & -> & Hs)];
          [by apply Forall_forall | by apply Forall_cons_2; [|apply Forall_nil_2]]. }
      destruct (wp_run _ _ _ (for_each_seed_known chosen w Hknown))
        as (batches & w' & Hrun & Hlen & Hall).
      by exists batches, w'.
  - unfold chosen_scenarios, truthy. intros [->| ->]; reflexivity.
Qed.

Lemma X9_main_seeds_only_known_scenarios_witness :
  chosen_scenarios (fun s => s) (fun _ => None) "" = inr scenarios.
Proof.
  apply (X9_main_seeds_only_known_scenarios (fun s => s) (fun _ => None) ""
                                            sample_world).
  by left.
Defined.

(** *** The incident documents against the configuration *)

Lemma str_fields_frame (key : string) (catalog docs : list dict) :
  key <> "created_at" -> key <> "_index" ->
  Forall2 (fun inc d : dict =>
             exists t, d = <["created_at" := VDate t]>
                             (<["_index" := VStr "soc-incidents"]> inc))
          catalog docs ->
  str_fields key docs = str_fields key catalog /\
  Forall2 (fun inc d => strs_field key d = strs_field key inc) catalog docs.
Proof.
  intros H1 H2. induction 1 as [|inc d catalog docs (t & ->) _ [IH1 IH2]]; [done|].
  assert ((<["created_at" := VDate t]> (<["_index" := VStr "soc-incidents"]> inc)
           : dict) !! key = inc !! key) as Hkey by (by rewrite !lookup_insert_ne).
  split.
  - unfold str_fields in *. cbn [omap list_omap]. by rewrite Hkey, IH1.
  - constructor; [|done]. unfold strs_field. by rewrite Hkey.
Qed.

Lemma catalog_services :
  Forall (fun inc : dict =>
            strs_field "services_affected" inc <> [] /\
            Forall (fun s => s ∈ SERVICES) (strs_field "services_affected" inc))
         HISTORICAL_INCIDENTS.
Proof.
  unfold HISTORICAL_INCIDENTS.
  repeat apply Forall_cons_2; [..|apply Forall_nil_2];
    (match goal with
     | |- context [strs_field ?k ?d] =>
         let v := eval vm_compute in (strs_field k d) in
         assert (strs_field k d = v) as -> by (vm_compute; reflexivity)
     end;
     split; [done|];
     repeat apply Forall_cons_2; [..|apply Forall_nil_2];
     unfold SERVICES;
     repeat first [apply list_elem_of_here | apply list_elem_of_further]).
Qed.

(** X11: the incident documents of every call carry the identifiers
    INC-001 to INC-008, in this order and so pairwise distinct, and each
    names at least one affected service, all of them configured services. *)
Theorem X11_incident_documents_reference_configured_services w :
  exists docs w',
    generate_incidents w = Ok docs w' /\
    str_fields "incident_id" docs
    = [ "INC-001"; "INC-002"; "INC-003"; "INC-004";
        "INC-005"; "INC-006"; "INC-007"; "INC-008" ] /\
    NoDup (str_fields "incident_id" docs) /\
    Forall (fun d => strs_field "services_affected" d <> [] /\
                     Forall (fun s => s ∈ SERVICES)
                            (strs_field "services_affected" d)) docs.
Proof.
  destruct (wp_run _ _ _ (generate_incidents_shape w)) as (docs & w' & Hrun & Hshape).
  exists docs, w'.
  destruct (str_fields_frame "incident_id" _ _ ltac:(done) ltac:(done) Hshape)
    as [Hids _].
  destruct (str_fields_frame "services_affected" _ _ ltac:(done) ltac:(done) Hshape)
    as [_ Hservices].
  assert (str_fields "incident_id" HISTORICAL_INCIDENTS
          = [ "INC-001"; "INC-002"; "INC-003"; "INC-004";
              "INC-005"; "INC-006"; "INC-007"; "INC-008" ]) as Hcatalog
    by (vm_compute; reflexivity).
  split_and!; [done | by rewrite Hids | |].
  - rewrite Hids, Hcatalog.
    by apply (bool_decide_unpack (NoDup [ "INC-001"; "INC-002"; "INC-003"; "INC-004";
                                          "INC-005"; "INC-006"; "INC-007"; "INC-008" ])).
  - pose proof catalog_services as Hcat. rewrite Forall_lookup in Hcat.
    apply Forall_lookup. intros i d Hd.
    destruct (Forall2_lookup_r _ _ _ _ _ Hservices Hd) as (inc & Hinc & ->).
    by apply (Hcat i inc).
Qed.

(** X13: in a seeded batch every log and metric document is stamped within
    the 60 minutes before the clock reading [seed_scenario] takes when it
    starts; the other documents are the incident documents. *)
Theorem X13_seeded_batch_is_anchored_at_the_first_reading (scenario : string) w :
  scenario ∈ scenarios ->
  returns_all (seed_scenario scenario w)
    (fun d => str_field_in "_index" [ "soc-incidents" ] d \/
              timestamp_within (clock_reading w 0 - 60 * minute) (clock_reading w 0) d).
Proof.
  intros Hsc. eapply returns_all_intro; [by apply seed_scenario_shape|].
  intros docs (l1 & l2 & l3 & l4 & l5 & -> & [_ H1] & [_ H2] & [_ H3]
               & (_ & h1 & h2 & H4) & H5).
  assert (forall d, timestamp_within (clock_reading w 0 - 15 * minute)
                                     (clock_reading w 0) d ->
                    timestamp_within (clock_reading w 0 - 60 * minute)
                                     (clock_reading w 0) d) as Hwiden.
  { intros d (t & ? & ?). exists t. split; [done|]. unfold minute in *. lia. }
  rewrite !Forall_app. split_and!.
  - eapply Forall_impl; [exact H1|]. intros d Hd. right.
    by apply log_entry_fields in Hd as (_ & ? & _).
  - eapply Forall_impl; [exact H2|]. intros d Hd. right.
    by apply metric_sample_fields in Hd as (_ & ? & _).
  - eapply Forall_impl; [exact H3|]. intros d Hd. right.
    apply log_entry_fields in Hd as (_ & ? & _). by apply Hwiden.
  - eapply Forall_impl; [exact H4|]. intros d Hd. right.
    apply metric_sample_fields in Hd as (_ & ? & _). by apply Hwiden.
  - apply Forall_lookup. intros i d Hd. left.
    destruct (Forall2_lookup_r _ _ _ _ _ H5 Hd) as (inc & Hinc & t & ->).
    exists "soc-incidents". split; [|apply list_elem_of_here].
    rewrite lookup_insert_ne by done. apply lookup_insert_eq.
Qed.

Lemma X13_seeded_batch_is_anchored_at_the_first_reading_witness :
  returns_all (seed_scenario "cpu_spike" sample_world)
    (fun d => str_field_in "_index" [ "soc-incidents" ] d \/
              timestamp_within (clock_reading sample_world 0 - 60 * minute)
                               (clock_reading sample_world 0) d).
Proof.
  apply (X13_seeded_batch_is_anchored_at_the_first_reading "cpu_spike" sample_world).
  apply scenario_in_known. reflexivity.
Defined.

(** *** The text fields of a log document *)

Lemma forallb_string_app (f : ascii -> bool) (a b : string) :
  forallb f (list_ascii_of_string (a ++ b))
  = forallb f (list_ascii_of_string a) && forallb f (list_ascii_of_string b).
Proof.
  induction a as [|c a IH]; [done|].
  change (String c a ++ b) with (String c (a ++ b)).
  cbn [list_ascii_of_string forallb]. by rewrite IH, andb_assoc.
Qed.

Lemma brace_free_app (a b : string) :
  brace_free (a ++ b) = brace_free a && brace_free b.
Proof. apply forallb_string_app. Qed.

Lemma kwarg_brace_free (name : string) (kwargs : list (string * string)) (v : string) :
  Forall (fun kv => brace_free kv.2 = true) kwargs ->
  kwarg name kwargs = Some v -> brace_free v = true.
Proof.
  induction 1 as [|[k v'] kwargs Hv _ IH]; [done|]. cbn [kwarg].
  destruct (String.eqb k name); [by intros [= <-] | exact IH].
Qed.

Lemma format_go_brace_free (kwargs : list (string * string)) (template : string) :
  Forall (fun kv => brace_free kv.2 = true) kwargs ->
  forall field s, format_go kwargs field template = inr s -> brace_free s = true.
Proof.
  intros Hkw. induction template as [|c rest IH]; intros field s.
  - destruct field; [done|]. by intros [= <-].
  - cbn [format_go]. destruct field as [name|].
    + destruct (Ascii.eqb c "}"); [|by apply IH].
      destruct (kwarg name kwargs) as [v|] eqn:Hv; [|done].
      destruct (format_go kwargs None rest) as [e|r] eqn:Hr; [done|].
      intros [= <-]. rewrite brace_free_app, (kwarg_brace_free _ _ _ Hkw Hv).
      by apply (IH None).
    + destruct (Ascii.eqb c "{") eqn:Hopen; [by apply IH|].
      destruct (Ascii.eqb c "}") eqn:Hclose; [done|].
      destruct (format_go kwargs None rest) as [e|r] eqn:Hr; [done|].
      intros [= <-]. unfold brace_free in *.
      cbn [list_ascii_of_string forallb]. rewrite Hopen, Hclose.
      by apply (IH None).
Qed.

Lemma str_of_int_brace_free (n : Z) : brace_free (str_of_int n) = true.
Proof.
  assert (forall d, brace_free (NilEmpty.string_of_uint d) = true) as Huint
    by (induction d; done).
  assert (forall d, brace_free (NilZero.string_of_uint d) = true) as Huint0
    by (intros []; try done; apply Huint).
  unfold str_of_int, NilZero.string_of_int.
  destruct (Z.to_int n); [apply Huint0|].
  unfold brace_free. cbn [list_ascii_of_string forallb]. apply Huint0.
Qed.

Lemma configured_names_brace_free (s : string) :
  s ∈ SERVICES \/ s ∈ HOSTS -> brace_free s = true.
Proof.
  unfold SERVICES, HOSTS. intros [H|H];
    repeat (apply elem_of_cons in H as [->|H]); try (by apply elem_of_nil in H);
    reflexivity.
Qed.

Lemma hex_string_app (a b : string) :
  hex_string (a ++ b) = hex_string a && hex_string b.
Proof. apply forallb_string_app. Qed.

Lemma string_length_app (a b : string) :
  String.length (a ++ b) = (String.length a + String.length b)%nat.
Proof.
  induction a as [|c a IH]; [done|].
  change (String c a ++ b) with (String c (a ++ b)). cbn [String.length Nat.add].
  by rewrite IH.
Qed.

Lemma hex_digits_spec (n : nat) (v : N) :
  String.length (hex_digits n v) = n /\ hex_string (hex_digits n v) = true.
Proof.
  revert v. induction n as [|n IH]; intros v; [done|].
  cbn [hex_digits]. destruct (IH (v / 16)%N) as [Hlen Hhex].
  rewrite string_length_app, hex_string_app, Hlen, Hhex.
  split; [cbn; lia|].
  pose proof (N.mod_upper_bound v 16 ltac:(done)) as Hlt.
  unfold hex_digit.
  assert (exists i, (i < 16)%nat /\ N.to_nat (v mod 16) = i) as (i & Hi & ->)
    by (eexists; split; [|done]; lia).
  do 16 (destruct i as [|i]; [reflexivity|]). lia.
Qed.

Lemma wp_trace_hex {E : exn -> Prop} (Q : string -> world -> Prop) w :
  (forall s w', String.length s = 16%nat -> hex_string s = true -> Q s w') ->
  wpe E _trace Q w.
Proof.
  intros HQ. unfold wpe, _trace, faker_next, bind, ret.
  apply HQ; apply hex_digits_spec.
Qed.

Lemma log_doc_text (ts : value) (service level msg host trace_id : string) :
  brace_free msg = true -> String.length trace_id = 16%nat ->
  hex_string trace_id = true ->
  log_text_ok (log_doc ts service level msg host trace_id).
Proof. intros. exists msg, trace_id. by split_and!; [vm_compute | | vm_compute | |]. Qed.

Lemma generate_normal_logs_text (base : datetime) (count : option Z) w :
  wpe (overflow_excuse (60 * minute) base) (generate_normal_logs base count)
      (fun docs _ => Forall log_text_ok docs) w.
Proof.
  unfold generate_normal_logs, for_range.
  eapply wp_mono; [apply (wp_repeatM _ log_text_ok) | by intros docs w' [_ H]].
  clear w. intros w.
  apply wp_bind, wp_random_uniform; [lra|]. intros offset w1 Hoffset _.
  apply wp_bind, wp_random_choice; [done|]. intros service w2 Hservice _.
  apply wp_bind, wp_random_choice; [done|]. intros host w3 _ _.
  apply wp_bind, wp_random_choice; [done|]. intros template w4 Htemplate _.
  apply wp_bind, wp_random_randint; [lia|]. intros t w5 _ _.
  apply wp_bind, wp_random_randint; [lia|]. intros n w6 _ _.
  apply wp_bind, wp_fake_random_int; [lia|]. intros uid w7 _ _.
  apply wp_bind, wp_str_format; [by apply normal_message_formats|].
  intros msg Hmsg.
  apply wp_bind, (wp_ts _ _ 60); [done|]. intros ts _.
  apply wp_bind, wp_random_choice; [done|]. intros level w8 _ _.
  apply wp_bind, wp_trace_hex. intros trace_id w9 Hlen Hhex.
  apply wp_ret, log_doc_text; [|done..].
  eapply format_go_brace_free; [|exact Hmsg].
  repeat apply Forall_cons_2; [..|apply Forall_nil_2]; cbn [snd];
    first [apply str_of_int_brace_free | apply configured_names_brace_free; by left].
Qed.

Lemma generate_incident_logs_text (base : datetime) (scenario : string)
    (count : option Z) w :
  scenario ∈ scenarios ->
  wpe (overflow_excuse (15 * minute) base) (generate_incident_logs base scenario count)
      (fun docs _ => Forall log_text_ok docs) w.
Proof.
  intros Hsc. destruct (error_messages_known scenario Hsc) as [msgs Hmsgs].
  unfold generate_incident_logs, for_range.
  apply wp_bind, (wp_subscript _ _ msgs); [done|].
  eapply wp_mono; [apply (wp_repeatM _ log_text_ok) | by intros docs w' [_ H]].
  clear w. intros w.
  apply wp_bind, wp_random_uniform; [lra|]. intros offset w1 Hoffset _.
  apply wp_bind, wp_random_choice; [done|]. intros service w2 Hservice _.
  apply wp_bind, wp_random_choice; [done|]. intros host w3 Hhost _.
  apply wp_bind, wp_random_choice; [by eapply error_messages_nonempty|].
  intros template w4 Htemplate _.
  apply wp_bind, wp_random_randint; [lia|]. intros n w5 _ _.
  apply wp_bind, wp_random_randint; [lia|]. intros t w6 _ _.
  apply wp_bind, wp_str_format; [by eapply error_message_formats|].
  intros msg Hmsg.
  apply wp_bind, (wp_ts _ _ 15); [done|]. intros ts _.
  apply wp_bind, wp_random_choice; [done|]. intros level w7 _ _.
  apply wp_bind, wp_trace_hex. intros trace_id w8 Hlen Hhex.
  apply wp_ret, log_doc_text; [|done..].
  eapply format_go_brace_free; [|exact Hmsg].
  repeat apply Forall_cons_2; [..|apply Forall_nil_2]; cbn [snd];
    first [ apply str_of_int_brace_free
          | apply configured_names_brace_free; right; by eapply (subseteq_take 4)
          | apply configured_names_brace_free; left; by eapply (subseteq_take 4) ].
Qed.

(** X14: in every log document, normal or incident, the message has every
    replacement field of its template filled in (no brace is left), and the
    trace id is a string of 16 lowercase hexadecimal digits. *)
Theorem X14_log_messages_and_trace_ids (base : datetime) (scenario : string)
    (count : option Z) w :
  returns_anchored (60 * minute) base (generate_normal_logs base count w)
    (Forall log_text_ok) /\
  (scenario ∈ scenarios ->
   returns_anchored (15 * minute) base (generate_incident_logs base scenario count w)
     (Forall log_text_ok)).
Proof.
  split; [|intros Hsc].
  - eapply returns_anchored_intro; [apply generate_normal_logs_text | done].
  - eapply returns_anchored_intro; [by apply generate_incident_logs_text | done].
Qed.

Lemma X14_log_messages_and_trace_ids_witness :
  returns_anchored (15 * minute) 1700000000000000
    (generate_incident_logs 1700000000000000 "cpu_spike" (Some 5) sample_world)
    (Forall log_text_ok).
Proof.
  refine (proj2 (X14_log_messages_and_trace_ids 1700000000000000 "cpu_spike" (Some 5)
                                                sample_world) _).
  apply scenario_in_known. reflexivity.
Defined.

Lemma log_doc_message (ts : value) (service level msg host trace_id : string) :
  let d := log_doc ts service level msg host trace_id in
  d !! "service" = Some (VStr service) /\
  d !! "host" = Some (VStr host) /\
  d !! "message" = Some (VStr msg).
Proof. by vm_compute. Qed.

Lemma generate_normal_logs_messages (base : datetime) (count : option Z) w :
  wpe (overflow_excuse (60 * minute) base) (generate_normal_logs base count)
      (fun docs _ => Forall normal_message_ok docs) w.
Proof.
  unfold generate_normal_logs, for_range.
  eapply wp_mono; [apply (wp_repeatM _ normal_message_ok) | by intros docs w' [_ H]].
  clear w. intros w.
  apply wp_bind, wp_random_uniform; [lra|]. intros offset w1 Hoffset _.
  apply wp_bind, wp_random_choice; [done|]. intros service w2 _ _.
  apply wp_bind, wp_random_choice; [done|]. intros host w3 _ _.
  apply wp_bind, wp_random_choice; [done|]. intros template w4 Htemplate _.
  apply wp_bind, wp_random_randint; [lia|]. intros t w5 Ht _.
  apply wp_bind, wp_random_randint; [lia|]. intros n w6 Hn _.
  apply wp_bind, wp_fake_random_int; [lia|]. intros uid w7 Huid _.
  apply wp_bind, wp_str_format; [by apply normal_message_formats|].
  intros msg Hmsg.
  apply wp_bind, (wp_ts _ _ 60); [done|]. intros ts _.
  apply wp_bind, wp_random_choice; [done|]. intros level w8 _ _.
  apply wp_bind, wp_trace. intros trace_id w9 _.
  apply wp_ret.
  destruct (log_doc_message (VDate ts) service level msg host trace_id)
    as (Hs & _ & Hm).
  by exists template, service, msg, t, n, uid.
Qed.

Lemma generate_incident_logs_messages (base : datetime) (scenario : string)
    (count : option Z) (msgs : list string) w :
  ERROR_MESSAGES_BY_SCENARIO !! scenario = Some msgs ->
  wpe (overflow_excuse (15 * minute) base) (generate_incident_logs base scenario count)
      (fun docs _ => Forall (incident_message_ok msgs) docs) w.
Proof.
  intros Hmsgs. unfold generate_incident_logs, for_range.
  apply wp_bind, (wp_subscript _ _ msgs); [done|].
  eapply wp_mono;
    [apply (wp_repeatM _ (incident_message_ok msgs)) | by intros docs w' [_ H]].
  clear w. intros w.
  apply wp_bind, wp_random_uniform; [lra|]. intros offset w1 Hoffset _.
  apply wp_bind, wp_random_choice; [done|]. intros service w2 _ _.
  apply wp_bind, wp_random_choice; [done|]. intros host w3 _ _.
  apply wp_bind, wp_random_choice; [by eapply error_messages_nonempty|].
  intros template w4 Htemplate _.
  apply wp_bind, wp_random_randint; [lia|]. intros n w5 Hn _.
  apply wp_bind, wp_random_randint; [lia|]. intros t w6 Ht _.
  apply wp_bind, wp_str_format; [by eapply error_message_formats|].
  intros msg Hmsg.
  apply wp_bind, (wp_ts _ _ 15); [done|]. intros ts _.
  apply wp_bind, wp_random_choice; [done|]. intros level w7 _ _.
  apply wp_bind, wp_trace. intros trace_id w8 _.
  apply wp_ret.
  destruct (log_doc_message (VDate ts) service level msg host trace_id)
    as (Hs & Hh & Hm).
  by exists template, service, host, msg, n, t.
Qed.

(** X15: the message of a normal log is a template of [NORMAL_MESSAGES]
    formatted with the document's own service; the message of an incident
    log is a template of its scenario's list in
    [ERROR_MESSAGES_BY_SCENARIO] formatted with the document's own host and
    service; the numbers filled in are in the ranges drawn. *)
Theorem X15_messages_come_from_the_scenario_templates (base : datetime)
    (scenario : string) (count : option Z) w :
  returns_anchored (60 * minute) base (generate_normal_logs base count w)
    (Forall normal_message_ok) /\
  (scenario ∈ scenarios ->
   exists msgs,
     ERROR_MESSAGES_BY_SCENARIO !! scenario = Some msgs /\
     returns_anchored (15 * minute) base
       (generate_incident_logs base scenario count w)
       (Forall (incident_message_ok msgs))).
Proof.
  split; [|intros Hsc].
  - eapply returns_anchored_intro; [apply generate_normal_logs_messages | done].
  - destruct (error_messages_known scenario Hsc) as [msgs Hmsgs].
    exists msgs. split; [done|].
    eapply returns_anchored_intro; [by apply generate_incident_logs_messages | done].
Qed.

Lemma X15_messages_come_from_the_scenario_templates_witness :
  exists msgs,
    ERROR_MESSAGES_BY_SCENARIO !! "oom_crash" = Some msgs /\
    returns_anchored (15 * minute) 1700000000000000
      (generate_incident_logs 1700000000000000 "oom_crash" (Some 4) sample_world)
      (Forall (incident_message_ok msgs)).
Proof.
  refine (proj2 (X15_messages_come_from_the_scenario_templates
                   1700000000000000 "oom_crash" (Some 4) sample_world) _).
  apply scenario_in_known. reflexivity.
Defined.
